(** * Event calendar: history log, event store and drop validator

    A shallow embedding of the state engine of the event calendar
    ([CalendarView.tsx], [EventModal], [utils/dateTime.ts]):
    the undo/redo history over event collections, the create / update /
    delete handlers, the drop validator [isValidDropDate] and the two
    gestures (drag, resize) that go through it.

    React state is threaded explicitly: every handler is a function from
    the component state to the component state.  A handler that reads the
    state through its closure ([history.present]) and through the updater
    argument ([prev]) reads the same state here: the calendar has a single
    actor and no update is interleaved between the two reads. *)

From Stdlib Require Import ZArith Lia Ascii String.
From stdpp Require Import base option list strings gmap pretty.

Local Open Scope Z_scope.

(** ** The JavaScript runtime the handlers rely on *)

(** [Date]: a time value in milliseconds.  The embedding works in local
    wall-clock time of a zone with a fixed offset (no daylight saving
    shifts), so that local midnight is a multiple of [msPerDay]; the
    calendar is the proleptic Gregorian one, as in ECMAScript. *)
Module JsDate.

Definition msPerDay : Z := 86400000.

Definition Day (t : Z) : Z := t / msPerDay.
Definition TimeWithinDay (t : Z) : Z := t mod msPerDay.

(** Day number (days since 1970-01-01) to (year, month 1..12, day 1..31). *)
Definition civilFromDays (z : Z) : Z * Z * Z :=
  let z := z + 719468 in
  let era := z / 146097 in
  let doe := z - era * 146097 in
  let yoe := (doe - doe / 1460 + doe / 36524 - doe / 146096) / 365 in
  let doy := doe - (365 * yoe + yoe / 4 - yoe / 100) in
  let mp := (5 * doy + 2) / 153 in
  let d := doy - (153 * mp + 2) / 5 + 1 in
  let m := if mp <? 10 then mp + 3 else mp - 9 in
  (yoe + era * 400 + (if m <=? 2 then 1 else 0), m, d).

(** (year, month 1..12, day) to day number; linear in the day, so a day
    outside the month rolls over into the neighbouring months. *)
Definition daysFromCivil (y m d : Z) : Z :=
  let y := y - (if m <=? 2 then 1 else 0) in
  let era := y / 400 in
  let yoe := y - era * 400 in
  let doy := (153 * (if 2 <? m then m - 3 else m + 9) + 2) / 5 + d - 1 in
  let doe := yoe * 365 + yoe / 4 - yoe / 100 + doy in
  era * 146097 + doe - 719468.

(** ECMAScript [MakeDay]: month is 0-based and may overflow into the year. *)
Definition MakeDay (year month date : Z) : Z :=
  let ym := year + month / 12 in
  let mn := month mod 12 in
  daysFromCivil ym (mn + 1) 1 + date - 1.

Definition getFullYear (t : Z) : Z := (civilFromDays (Day t)).1.1.
Definition getMonth (t : Z) : Z := (civilFromDays (Day t)).1.2 - 1.
Definition getDate (t : Z) : Z := (civilFromDays (Day t)).2.

(** [new Date(year, month, day)]: local midnight of that day; a year in
    0..99 means 1900 + year. *)
Definition fromYMD (year month day : Z) : Z :=
  let y := if (0 <=? year) && (year <=? 99) then 1900 + year else year in
  MakeDay y month day * msPerDay.

(** [t.setDate(d)] *)
Definition setDate (t d : Z) : Z :=
  MakeDay (getFullYear t) (getMonth t) d * msPerDay + TimeWithinDay t.

(** [t.setFullYear(y)] *)
Definition setFullYear (t y : Z) : Z :=
  MakeDay y (getMonth t) (getDate t) * msPerDay + TimeWithinDay t.

(** [t.setHours(0, 0, 0, 0)] *)
Definition setHoursZero (t : Z) : Z := Day t * msPerDay.

End JsDate.

(** Strings are sequences of one-byte code units; numbers are exact
    integers or [None] for [NaN]. *)
Module JsString.

Definition code (c : ascii) : Z := Z.of_N (N_of_ascii c).

(** White space and line terminators that fit in one code unit. *)
Definition isWhiteSpace (c : ascii) : bool :=
  let n := code c in
  ((9 <=? n) && (n <=? 13)) || (n =? 32) || (n =? 160).

Definition isDigit (c : ascii) : bool :=
  let n := code c in (48 <=? n) && (n <=? 57).

(** Value of a character as a digit of radix up to 36. *)
Definition digitValue (c : ascii) : option Z :=
  let n := code c in
  if (48 <=? n) && (n <=? 57) then Some (n - 48)
  else if (97 <=? n) && (n <=? 122) then Some (n - 87)
  else if (65 <=? n) && (n <=? 90) then Some (n - 55)
  else None.

Fixpoint trimStart (s : string) : string :=
  match s with
  | String c r => if isWhiteSpace c then trimStart r else s
  | EmptyString => EmptyString
  end.

Fixpoint trimEnd (s : string) : string :=
  match s with
  | String c r =>
      match trimEnd r with
      | EmptyString => if isWhiteSpace c then EmptyString else String c EmptyString
      | r' => String c r'
      end
  | EmptyString => EmptyString
  end.

(** [s.trim()] *)
Definition trim (s : string) : string := trimEnd (trimStart s).

(** [s.replace(":", "")]: a string pattern replaces the first match only. *)
Fixpoint removeFirstColon (s : string) : string :=
  match s with
  | String c r => if Ascii.eqb c ":" then r else String c (removeFirstColon r)
  | EmptyString => EmptyString
  end.

(** [s.split(":")] *)
Fixpoint splitColon (s : string) : list string :=
  match s with
  | String c r =>
      if Ascii.eqb c ":" then EmptyString :: splitColon r
      else match splitColon r with
           | piece :: rest => String c piece :: rest
           | [] => [String c EmptyString]
           end
  | EmptyString => [EmptyString]
  end.

(** The longest prefix of digits below [radix], as a number; [acc] is the
    value read so far ([None]: no digit yet). *)
Fixpoint digitsPrefix (radix : Z) (acc : option Z) (s : string) : option Z :=
  match s with
  | String c r =>
      match digitValue c with
      | Some d =>
          if d <? radix then digitsPrefix radix (Some (default 0 acc * radix + d)) r
          else acc
      | None => acc
      end
  | EmptyString => acc
  end.

(** [parseInt(s)] with no radix argument: leading white space, a sign, a
    [0x] prefix for radix 16, then the longest run of digits; [NaN] when
    that run is empty. *)
Definition parseInt (s : string) : option Z :=
  let s1 := trimStart s in
  let '(sign, s2) :=
    match s1 with
    | String c r =>
        if Ascii.eqb c "-" then (-1, r)
        else if Ascii.eqb c "+" then (1, r) else (1, s1)
    | EmptyString => (1, s1)
    end in
  let '(radix, s3) :=
    match s2 with
    | String c0 (String cx r) =>
        if Ascii.eqb c0 "0" && (Ascii.eqb cx "x" || Ascii.eqb cx "X")
        then (16, r) else (10, s2)
    | _ => (10, s2)
    end in
  (fun v => sign * v) <$> digitsPrefix radix None s3.

Fixpoint allDigits (s : string) : bool :=
  match s with
  | String c r => isDigit c && allDigits r
  | EmptyString => true
  end.

(** [Number(s)] on the integer fragment of numeric strings: surrounding
    white space is dropped, the empty string is 0, an optionally signed
    run of decimal digits is its value.  Literals with a fraction, an
    exponent, a radix prefix or [Infinity] are not represented and read
    as [NaN], like every string that is not numeric. *)
Definition Number (s : string) : option Z :=
  let t := trim s in
  match t with
  | EmptyString => Some 0
  | String c r =>
      let '(sign, body) :=
        if Ascii.eqb c "-" then (-1, r)
        else if Ascii.eqb c "+" then (1, r) else (1, t) in
      match body with
      | EmptyString => None
      | _ => if allDigits body
             then (fun v => sign * v) <$> digitsPrefix 10 None body
             else None
      end
  end.

(** Comparisons of numbers: any comparison with [NaN] is false. *)
Definition lt (a b : option Z) : bool :=
  match a, b with Some x, Some y => x <? y | _, _ => false end.
Definition gt (a b : option Z) : bool := lt b a.
Definition le (a b : option Z) : bool :=
  match a, b with Some x, Some y => x <=? y | _, _ => false end.

End JsString.

(** ** Data model ([types/Event.ts]) *)

Inductive EventType := work | personal | meeting | other.

Inductive EventMode := view | edit | create.

Record CalendarEvent := {
  id : string;
  title : string;
  description : option string;
  startDate : Z;
  endDate : Z;
  startTime : string;
  endTime : string;
  type : EventType;
  isMultiDay : option bool;
}.

(** ** History ([CalendarView.tsx]) *)

Record HistoryState := {
  past : list (list CalendarEvent);
  present : list CalendarEvent;
  future : list (list CalendarEvent);
}.

Definition pushToHistory (newEvents : list CalendarEvent) (prev : HistoryState)
  : HistoryState :=
  {| past := past prev ++ [present prev];
     present := newEvents;
     future := [] |}.

(** [undo]: [newPast] is [prev.past.slice(0, -1)], [newPresent] is
    [prev.past[prev.past.length - 1]], a lookup that cannot miss once the
    length is not 0. *)
Definition undo (prev : HistoryState) : HistoryState :=
  if (length (past prev) =? 0)%nat then prev
  else
    let newPast := take (length (past prev) - 1) (past prev) in
    match past prev !! (length (past prev) - 1)%nat with
    | Some newPresent =>
        {| past := newPast;
           present := newPresent;
           future := present prev :: future prev |}
    | None => prev
    end.

(** [redo]: [newFuture] is [prev.future.slice(1)], [newPresent] is
    [prev.future[0]]. *)
Definition redo (prev : HistoryState) : HistoryState :=
  if (length (future prev) =? 0)%nat then prev
  else
    let newFuture := drop 1 (future prev) in
    match future prev !! 0%nat with
    | Some newPresent =>
        {| past := past prev ++ [present prev];
           present := newPresent;
           future := newFuture |}
    | None => prev
    end.

(** A run of commits [c1 .. cn], oldest first. *)
Definition commits (cs : list (list CalendarEvent)) (h : HistoryState)
  : HistoryState :=
  foldl (fun h c => pushToHistory c h) h cs.

(** ** Time-of-day utilities ([utils/dateTime.ts]) *)

(** Convert time string to minutes for easier comparison.  A string with
    no colon has no second piece: [minutes] is undefined and the sum is
    [NaN]. *)
Definition timeToMinutes (time : string) : option Z :=
  match JsString.Number <$> JsString.splitColon time with
  | hours :: minutes :: _ =>
      h ← hours; m ← minutes; Some (h * 60 + m)
  | _ => None
  end.

(** Check if two time ranges overlap. *)
Definition doTimesOverlap (start1 end1 start2 end2 : string) : bool :=
  let start1Mins := timeToMinutes start1 in
  let end1Mins := timeToMinutes end1 in
  let start2Mins := timeToMinutes start2 in
  let end2Mins := timeToMinutes end2 in
  JsString.lt start1Mins end2Mins && JsString.gt end1Mins start2Mins.

(** Validate time range. *)
Definition validateTimeRange (startTime endTime : string) : option string :=
  let startMinutes := timeToMinutes startTime in
  let endMinutes := timeToMinutes endTime in
  if JsString.le endMinutes startMinutes
  then Some "End time must be after start time"%string
  else None.

(** [isSameDate] of [findOverlappingEvent]; [None] is an invalid date, whose
    getters return [NaN], and [NaN === x] is false. *)
Definition isSameDate (date1 date2 : option Z) : bool :=
  match date1, date2 with
  | Some d1, Some d2 =>
      (JsDate.getFullYear d1 =? JsDate.getFullYear d2)
      && (JsDate.getMonth d1 =? JsDate.getMonth d2)
      && (JsDate.getDate d1 =? JsDate.getDate d2)
  | _, _ => false
  end.

(** [existingEvent.date]: a [CalendarEvent] has no such property, the read
    gives [undefined] and [new Date(undefined)] is an invalid date. *)
Definition dateProperty (_ : CalendarEvent) : option Z := None.

(** Check if an event overlaps with any existing events.  The new event is
    given by its [date], [startTime] and [endTime]. *)
Definition findOverlappingEvent (newDate : Z) (newStartTime newEndTime : string)
    (existingEvents : list CalendarEvent) (excludeEventId : option string)
  : option CalendarEvent :=
  List.find (fun existingEvent =>
    if match excludeEventId with
       | Some x => negb (x =? "")%string && (id existingEvent =? x)%string
       | None => false
       end
    then false
    else if negb (isSameDate (dateProperty existingEvent) (Some newDate))
    then false
    else doTimesOverlap newStartTime newEndTime
           (startTime existingEvent) (endTime existingEvent))
    existingEvents.

(** ** The calendar component ([CalendarView.tsx]) *)

(** The component state.  [alerts] records the messages passed to
    [alert], oldest first.  Timers that only hide the save notification
    again are not part of the state. *)
Record CalendarState := {
  currentDate : Z;
  history : HistoryState;
  isModalOpen : bool;
  selectedDate : Z;
  selectedEvent : option CalendarEvent;
  modalMode : EventMode;
  dragError : option string;
  resizingEvent : option (string * Z * Z);
  showSaveNotification : bool;
  alerts : list string;
}.

Definition setHistory (f : HistoryState → HistoryState) (st : CalendarState)
  : CalendarState :=
  {| currentDate := currentDate st; history := f (history st);
     isModalOpen := isModalOpen st; selectedDate := selectedDate st;
     selectedEvent := selectedEvent st; modalMode := modalMode st;
     dragError := dragError st; resizingEvent := resizingEvent st;
     showSaveNotification := showSaveNotification st; alerts := alerts st |}.

Definition setIsModalOpen (b : bool) (st : CalendarState) : CalendarState :=
  {| currentDate := currentDate st; history := history st;
     isModalOpen := b; selectedDate := selectedDate st;
     selectedEvent := selectedEvent st; modalMode := modalMode st;
     dragError := dragError st; resizingEvent := resizingEvent st;
     showSaveNotification := showSaveNotification st; alerts := alerts st |}.

Definition setModalMode (m : EventMode) (st : CalendarState) : CalendarState :=
  {| currentDate := currentDate st; history := history st;
     isModalOpen := isModalOpen st; selectedDate := selectedDate st;
     selectedEvent := selectedEvent st; modalMode := m;
     dragError := dragError st; resizingEvent := resizingEvent st;
     showSaveNotification := showSaveNotification st; alerts := alerts st |}.

Definition setDragError (e : option string) (st : CalendarState) : CalendarState :=
  {| currentDate := currentDate st; history := history st;
     isModalOpen := isModalOpen st; selectedDate := selectedDate st;
     selectedEvent := selectedEvent st; modalMode := modalMode st;
     dragError := e; resizingEvent := resizingEvent st;
     showSaveNotification := showSaveNotification st; alerts := alerts st |}.

Definition setResizingEvent (r : option (string * Z * Z)) (st : CalendarState)
  : CalendarState :=
  {| currentDate := currentDate st; history := history st;
     isModalOpen := isModalOpen st; selectedDate := selectedDate st;
     selectedEvent := selectedEvent st; modalMode := modalMode st;
     dragError := dragError st; resizingEvent := r;
     showSaveNotification := showSaveNotification st; alerts := alerts st |}.

Definition setShowSaveNotification (b : bool) (st : CalendarState)
  : CalendarState :=
  {| currentDate := currentDate st; history := history st;
     isModalOpen := isModalOpen st; selectedDate := selectedDate st;
     selectedEvent := selectedEvent st; modalMode := modalMode st;
     dragError := dragError st; resizingEvent := resizingEvent st;
     showSaveNotification := b; alerts := alerts st |}.

Definition alert (msg : string) (st : CalendarState) : CalendarState :=
  {| currentDate := currentDate st; history := history st;
     isModalOpen := isModalOpen st; selectedDate := selectedDate st;
     selectedEvent := selectedEvent st; modalMode := modalMode st;
     dragError := dragError st; resizingEvent := resizingEvent st;
     showSaveNotification := showSaveNotification st;
     alerts := alerts st ++ [msg] |}.

(** What the modal hands to [onSave]: an event without its [id]. *)
Module Draft.
Record t := {
  title : string;
  description : string;
  startDate : Z;
  endDate : Z;
  startTime : string;
  endTime : string;
  type : EventType;
}.
End Draft.

(** [handleModalSave]; [now] is [Date.now()], [saveOk] tells whether
    [saveEvents] resolves (true) or throws (false). *)
Definition handleModalSave (now : Z) (saveOk : bool) (eventData : Draft.t)
    (st : CalendarState) : CalendarState :=
  if (Draft.title eventData =? "")%string
  then alert "Please enter an event title" st
  else
    let newEvent :=
      {| id := pretty now;
         title := JsString.trim (Draft.title eventData);
         description := Some (JsString.trim (Draft.description eventData));
         startDate := selectedDate st;
         endDate := selectedDate st;
         startTime := if (Draft.startTime eventData =? "")%string
                      then "09:00"%string else Draft.startTime eventData;
         endTime := if (Draft.endTime eventData =? "")%string
                    then "10:00"%string else Draft.endTime eventData;
         type := Draft.type eventData;
         isMultiDay := Some false |} in
    let newPresent := present (history st) ++ [newEvent] in
    if saveOk
    then setIsModalOpen false
           (setShowSaveNotification true
              (setHistory (pushToHistory newPresent) st))
    else alert "Failed to save event. Please try again." st.

Definition handleDeleteEvent (eventId : string) (st : CalendarState)
  : CalendarState :=
  setHistory (fun prev =>
    {| past := past prev ++ [present prev];
       present := List.filter (fun event => negb (id event =? eventId)%string)
                    (present prev);
       future := [] |}) st.

Definition handleUpdateEvent (saveOk : bool) (updatedEvent : CalendarEvent)
    (st : CalendarState) : CalendarState :=
  let newPresent :=
    List.map (fun event =>
      if (id event =? id updatedEvent)%string then updatedEvent else event)
      (present (history st)) in
  if saveOk
  then setIsModalOpen false
         (setModalMode view
            (setShowSaveNotification true
               (setHistory (pushToHistory newPresent) st)))
  else alert "Failed to update event. Please try again." st.

(** [isDateInEventRange] resets the time of day of its [date] argument in
    place; the date is returned with the answer. *)
Definition isDateInEventRange (date : Z) (event : CalendarEvent) : bool * Z :=
  let eventStart := JsDate.setHoursZero (startDate event) in
  let eventEnd := JsDate.setHoursZero (endDate event) in
  let date := JsDate.setHoursZero date in
  ((eventStart <=? date) && (date <=? eventEnd), date).

(** ** The drop validator *)

Inductive DropError := PastDate | HorizonExceeded | TimeConflict.

Inductive Verdict := Accept | Reject (reason : DropError).

(** The message [isValidDropDate] passes to [setDragError]. *)
Definition dropErrorMessage (e : DropError) : string :=
  match e with
  | PastDate => "Cannot schedule events in the past"
  | HorizonExceeded => "Cannot schedule events more than a year in advance"
  | TimeConflict => "Time conflict with existing event"
  end.

Definition verdictDragError (v : Verdict) : option string :=
  match v with
  | Accept => None
  | Reject e => Some (dropErrorMessage e)
  end.

(** The callback of [dayEvents.some]. *)
Definition hasConflict (event existingEvent : CalendarEvent) : bool :=
  let eventStart := JsString.parseInt (JsString.removeFirstColon (startTime event)) in
  let eventEnd := JsString.parseInt (JsString.removeFirstColon (endTime event)) in
  let existingStart :=
    JsString.parseInt (JsString.removeFirstColon (startTime existingEvent)) in
  let existingEnd :=
    JsString.parseInt (JsString.removeFirstColon (endTime existingEvent)) in
  JsString.lt eventStart existingEnd && JsString.gt eventEnd existingStart.

(** [history.present.filter(e => isDateInEventRange(currentDate, e) &&
    e.id !== event.id)], with the loop's [currentDate] threaded through
    the calls. *)
Fixpoint dayEventsFilter (eventId : string) (currentDate : Z)
    (events : list CalendarEvent) : list CalendarEvent * Z :=
  match events with
  | [] => ([], currentDate)
  | e :: rest =>
      let '(inRange, currentDate) := isDateInEventRange currentDate e in
      let keep := inRange && negb (id e =? eventId)%string in
      let '(kept, currentDate) := dayEventsFilter eventId currentDate rest in
      (if keep then e :: kept else kept, currentDate)
  end.

(** The [while (currentDate <= newEndDate)] loop; [None] when [fuel]
    iterations were not enough to leave it. *)
Fixpoint dropLoop (fuel : nat) (event : CalendarEvent)
    (events : list CalendarEvent) (currentDate newEndDate : Z) : option Verdict :=
  match fuel with
  | O => None
  | S fuel =>
      if currentDate <=? newEndDate then
        let '(dayEvents, currentDate) :=
          dayEventsFilter (id event) currentDate events in
        if existsb (hasConflict event) dayEvents
        then Some (Reject TimeConflict)
        else dropLoop fuel event events
               (JsDate.setDate currentDate (JsDate.getDate currentDate + 1))
               newEndDate
      else Some Accept
  end.

(** One more than the number of calendar days from the start day to the
    end day, plus the final test that leaves the loop. *)
Definition dropFuel (newStartDate newEndDate : Z) : nat :=
  S (Z.to_nat (JsDate.Day newEndDate - JsDate.Day newStartDate + 1)).

(** [isValidDropDate]; [now] and [now'] are the two [new Date()] reads. *)
Definition isValidDropDate (now now' : Z) (events : list CalendarEvent)
    (event : CalendarEvent) (newStartDate newEndDate : Z) : option Verdict :=
  let today := JsDate.setHoursZero now in
  if newStartDate <? today then Some (Reject PastDate)
  else
    let oneYearFromNow := JsDate.setFullYear now' (JsDate.getFullYear now' + 1) in
    if oneYearFromNow <? newStartDate then Some (Reject HorizonExceeded)
    else dropLoop (dropFuel newStartDate newEndDate) event events
           newStartDate newEndDate.

(** Vocabulary for the properties of the validator.  The day [d] lies in
    the date range of [e], at day granularity. *)
Definition occupies (e : CalendarEvent) (d : Z) : bool :=
  (JsDate.Day (startDate e) <=? d) && (d <=? JsDate.Day (endDate e)).

(** Some other event of the collection occupies day [d] and its time
    range meets that of [event]. *)
Definition conflictOn (event : CalendarEvent) (events : list CalendarEvent)
    (d : Z) : bool :=
  existsb (fun e =>
    occupies e d && negb (id e =? id event)%string && hasConflict event e)
    events.

(** A well-formed 24-hour time of day [HH:MM]: two digits, a colon, two
    digits, hours at most 23 and minutes at most 59. *)
Definition wellFormedTime (time : string) : bool :=
  match time with
  | String h1 (String h0 (String c (String m1 (String m0 EmptyString)))) =>
      JsString.isDigit h1 && JsString.isDigit h0 && Ascii.eqb c ":"
      && JsString.isDigit m1 && JsString.isDigit m0
      && (10 * (JsString.code h1 - 48) + (JsString.code h0 - 48) <=? 23)
      && (10 * (JsString.code m1 - 48) + (JsString.code m0 - 48) <=? 59)
  | _ => false
  end.

(** The ten digit characters, and the check, run over all of them below,
    that on a well-formed [h1 h0 : m1 m0] the validator's reading is
    [100 * h + m] and that of [timeToMinutes] is [60 * h + m]. *)
Definition digitChars : list ascii :=
  ["0"; "1"; "2"; "3"; "4"; "5"; "6"; "7"; "8"; "9"]%char.

Definition timeOf (h1 h0 m1 m0 : ascii) : string :=
  String h1 (String h0 (String ":" (String m1 (String m0 EmptyString)))).

Definition encodingsAgreeOn (h1 h0 m1 m0 : ascii) : bool :=
  let time := timeOf h1 h0 m1 m0 in
  let h := 10 * (JsString.code h1 - 48) + (JsString.code h0 - 48) in
  let m := 10 * (JsString.code m1 - 48) + (JsString.code m0 - 48) in
  if wellFormedTime time
  then bool_decide (JsString.parseInt (JsString.removeFirstColon time)
                    = Some (100 * h + m))
       && bool_decide (timeToMinutes time = Some (60 * h + m))
       && (0 <=? h) && (0 <=? m) && (m <=? 59)
  else true.

(** The start and end dates of the events of the collection. *)
Definition dateRanges (st : CalendarState) : list (Z * Z) :=
  (fun e => (startDate e, endDate e)) <$> present (history st).

(** ** Gestures *)

(** The [newStartDate] and [newEndDate] that [handleDragEnd] computes for
    a drop of [event] on day [destDay] of the displayed month. *)
Definition dropRange (currentDate : Z) (event : CalendarEvent) (destDay : Z)
  : Z * Z :=
  let daysDiff :=
    JsDate.getDate (endDate event) - JsDate.getDate (startDate event) in
  let newStartDate :=
    JsDate.fromYMD (JsDate.getFullYear currentDate)
      (JsDate.getMonth currentDate) destDay in
  let newEndDate :=
    JsDate.setDate newStartDate (JsDate.getDate newStartDate + daysDiff) in
  (newStartDate, newEndDate).

(** [handleDragEnd].  [destination] is the day number [N] of the cell
    [day-N] the event was dropped on, [None] for a drop outside the grid.
    The commit the source defers by 50 ms is applied at once. *)
Definition handleDragEnd (now now' : Z) (draggableId : string)
    (destination : option Z) (st : CalendarState) : option CalendarState :=
  match destination with
  | None => Some st
  | Some destDay =>
      match List.find (fun e => (id e =? draggableId)%string)
              (present (history st)) with
      | None => Some st
      | Some event =>
          let '(newStartDate, newEndDate) :=
            dropRange (currentDate st) event destDay in
          v ← isValidDropDate now now' (present (history st)) event
                newStartDate newEndDate;
          let st := setDragError (verdictDragError v) st in
          match v with
          | Reject _ => Some st
          | Accept =>
              let updatedEvent :=
                {| id := id event; title := title event;
                   description := description event;
                   startDate := newStartDate; endDate := newEndDate;
                   startTime := startTime event; endTime := endTime event;
                   type := type event; isMultiDay := isMultiDay event |} in
              let newEvents :=
                List.map (fun e =>
                  if (id e =? draggableId)%string then updatedEvent else e)
                  (present (history st)) in
              Some (setHistory (pushToHistory newEvents) st)
          end
      end
  end.

Inductive ResizePosition := atStart | atEnd.

(** The callback [handleResize] schedules: validate, then commit or drop
    the resize in progress. *)
Definition resizeCommit (now now' : Z) (event newEvent : CalendarEvent)
    (st : CalendarState) : option CalendarState :=
  v ← isValidDropDate now now' (present (history st)) newEvent
        (startDate newEvent) (endDate newEvent);
  let st := setDragError (verdictDragError v) st in
  match v with
  | Reject _ => Some (setResizingEvent None st)
  | Accept =>
      Some (setResizingEvent None
              (setHistory (fun prev =>
                 {| past := past prev ++ [present prev];
                    present :=
                      List.map (fun e =>
                        if (id e =? id event)%string then newEvent else e)
                        (present prev);
                    future := [] |}) st))
  end.

(** The [newEvent] that [handleResize] builds from a pixel [delta];
    [Math.round(delta / 50)] is the floor of [delta / 50 + 1/2].  [None]
    when the handler returns before it schedules anything: no whole day
    of movement, or an edge that would meet or cross the other one. *)
Definition resizedEvent (event : CalendarEvent) (position : ResizePosition)
    (delta : Z) : option CalendarEvent :=
  let dayDelta := (2 * delta + 50) / 100 in
  if dayDelta =? 0 then None
  else
    let date := match position with
                | atStart => startDate event
                | atEnd => endDate event
                end in
    let newDate := JsDate.setDate date (JsDate.getDate date + dayDelta) in
    let withDates (s e : Z) :=
      {| id := id event; title := title event;
         description := description event;
         startDate := s; endDate := e;
         startTime := startTime event; endTime := endTime event;
         type := type event; isMultiDay := isMultiDay event |} in
    match position with
    | atStart =>
        if endDate event <=? newDate then None
        else Some (withDates newDate (endDate event))
    | atEnd =>
        if newDate <=? startDate event then None
        else Some (withDates (startDate event) newDate)
    end.

(** [handleResize]; [delta] is in pixels.  The scheduled callback runs
    right after the gesture. *)
Definition handleResize (now now' : Z) (event : CalendarEvent) (day : Z)
    (position : ResizePosition) (delta : Z) (st : CalendarState)
  : option CalendarState :=
  match resizedEvent event position delta with
  | None => Some st
  | Some newEvent =>
      let st :=
        setResizingEvent
          (Some (id event, startDate newEvent, endDate newEvent)) st in
      resizeCommit now now' event newEvent st
  end.

(** ** The event modal ([EventModal.tsx]) *)

(** [formatTime12Hour] of [utils/dateTime.ts]; a missing minutes piece
    prints as [undefined], a [NaN] hour as [NaN]. *)
Definition formatTime12Hour (time24 : string) : string :=
  let pieces := JsString.splitColon time24 in
  let hours := default EmptyString (pieces !! 0%nat) in
  let minutes := default "undefined"%string (pieces !! 1%nat) in
  let hoursNum := JsString.parseInt hours in
  let period := if JsString.le (Some 12) hoursNum then "PM" else "AM" in
  let hours12 :=
    match hoursNum with
    | Some h => pretty (if h =? 0 then 12 else if 12 <? h then h - 12 else h)
    | None => "NaN"
    end in
  (hours12 +:+ ":" +:+ minutes +:+ period)%string.

(** The form state [eventData] of the modal. *)
Module EventData.
Record t := {
  title : string;
  startTime : string;
  endTime : string;
  description : string;
  type : EventType;
}.
End EventData.

(** The props the calendar passes to the modal, apart from the callbacks,
    which are the calendar's own handlers. *)
Module Props.
Record t := {
  selectedDate : Z;
  selectedEvent : option CalendarEvent;
  mode : EventMode;
  eventsForDay : list CalendarEvent;
}.
End Props.

Module EventModal.

Definition quote : string := String (ascii_of_nat 34) EmptyString.

(** [validateForm]: the errors it stores with [setErrors] and its answer. *)
Definition validateForm (props : Props.t) (eventData : EventData.t)
  : gmap string string * bool :=
  let newErrors : gmap string string := ∅ in
  let newErrors :=
    if (JsString.trim (EventData.title eventData) =? "")%string
    then <["title"%string := "Title is required"%string]> newErrors
    else newErrors in
  let timeRangeError :=
    validateTimeRange (EventData.startTime eventData)
      (EventData.endTime eventData) in
  let newErrors :=
    match timeRangeError with
    | Some err => <["endTime"%string := err]> newErrors
    | None => newErrors
    end in
  let overlappingEvent :=
    findOverlappingEvent (Props.selectedDate props)
      (EventData.startTime eventData) (EventData.endTime eventData)
      (Props.eventsForDay props) (id <$> Props.selectedEvent props) in
  let newErrors :=
    match overlappingEvent with
    | Some ov =>
        <["time"%string :=
            ("Overlaps with " +:+ quote +:+ title ov +:+ quote +:+ " ("
             +:+ formatTime12Hour (startTime ov) +:+ " - "
             +:+ formatTime12Hour (endTime ov) +:+ ")")%string]>
          newErrors
    | None => newErrors
    end in
  (newErrors, bool_decide (newErrors = ∅)).

(** [handleSubmit], with [onSave = handleModalSave],
    [onUpdate = handleUpdateEvent] and [onClose] closing the modal.
    Returns the errors stored by [validateForm] and the calendar state. *)
Definition handleSubmit (now : Z) (saveOk : bool) (props : Props.t)
    (eventData : EventData.t) (st : CalendarState)
  : gmap string string * CalendarState :=
  let '(newErrors, valid) := validateForm props eventData in
  if negb valid then (newErrors, st)
  else
    let newEventData :=
      {| Draft.title := EventData.title eventData;
         Draft.description := EventData.description eventData;
         Draft.startTime := EventData.startTime eventData;
         Draft.endTime := EventData.endTime eventData;
         Draft.type := EventData.type eventData;
         Draft.startDate := Props.selectedDate props;
         Draft.endDate := Props.selectedDate props |} in
    let st :=
      match Props.mode props, Props.selectedEvent props with
      | edit, Some ev =>
          handleUpdateEvent saveOk
            {| id := id ev;
               title := EventData.title eventData;
               description := Some (EventData.description eventData);
               startDate := Props.selectedDate props;
               endDate := Props.selectedDate props;
               startTime := EventData.startTime eventData;
               endTime := EventData.endTime eventData;
               type := EventData.type eventData;
               isMultiDay := isMultiDay ev |} st
      | _, _ => handleModalSave now saveOk newEventData st
      end in
    (newErrors, setIsModalOpen false st).

End EventModal.

(** ** More of the runtime: text *)

Module JsText.

(** [s.toLowerCase()] on one-byte code units: the letters A-Z and the
    capital letters of Latin-1. *)
Definition lowerChar (c : ascii) : ascii :=
  let n := JsString.code c in
  if ((65 <=? n) && (n <=? 90))
     || ((192 <=? n) && (n <=? 222) && negb (n =? 215))
  then ascii_of_N (Z.to_N (n + 32)) else c.

Fixpoint toLowerCase (s : string) : string :=
  match s with
  | String c r => String (lowerChar c) (toLowerCase r)
  | EmptyString => EmptyString
  end.

Fixpoint startsWith (s q : string) : bool :=
  match q with
  | EmptyString => true
  | String c q' =>
      match s with
      | String d s' => Ascii.eqb c d && startsWith s' q'
      | EmptyString => false
      end
  end.

(** [s.includes(q)] *)
Fixpoint includes (s q : string) : bool :=
  startsWith s q
  || match s with
     | String _ s' => includes s' q
     | EmptyString => false
     end.

(** [s.padStart(n, c)] for a one-character pad. *)
Definition padStart (n : nat) (c : ascii) (s : string) : string :=
  (string_of_list_ascii (replicate (n - String.length s) c) +:+ s)%string.

(** [x.toString()] of a number. *)
Definition numberToString (x : option Z) : string :=
  match x with
  | Some z => pretty z
  | None => "NaN"
  end.

(** Does [\s*([AaPp][Mm])] match at the start of [s]?  The answer is the
    captured pair of letters. *)
Fixpoint matchPeriod (s : string) : option string :=
  match s with
  | String c r =>
      if JsString.isWhiteSpace c then matchPeriod r
      else
        match r with
        | String d _ =>
            if (Ascii.eqb c "A" || Ascii.eqb c "a" || Ascii.eqb c "P"
                || Ascii.eqb c "p")
               && (Ascii.eqb d "M" || Ascii.eqb d "m")
            then Some (String c (String d EmptyString))
            else None
        | EmptyString => None
        end
  | EmptyString => None
  end.

(** The first two elements of [s.split(/\s*([AaPp][Mm])/)]: the text
    before the first match and the captured letters, if there is a match. *)
Fixpoint splitPeriod (s : string) : string * option string :=
  match matchPeriod s with
  | Some p => (EmptyString, Some p)
  | None =>
      match s with
      | String c r =>
          let '(timePart, period) := splitPeriod r in
          (String c timePart, period)
      | EmptyString => (EmptyString, None)
      end
  end.

End JsText.

(** ** Time formatting in the calendar ([CalendarView.tsx]) *)

Module CalendarView.

(** [formatTime12Hour] of the calendar component. *)
Definition formatTime12Hour (time24 : string) : string :=
  if (time24 =? "")%string then EmptyString
  else
    match JsString.Number <$> JsString.splitColon time24 with
    | Some hours :: Some minutes :: _ =>
        let period := if 12 <=? hours then "PM" else "AM" in
        let hours12 :=
          if hours =? 0 then 12 else if 12 <? hours then hours - 12 else hours in
        (pretty hours12 +:+ ":" +:+ JsText.padStart 2 "0" (pretty minutes)
         +:+ " " +:+ period)%string
    | _ => time24
    end.

(** [convertTo24Hour].  A missing period would make
    [period.toLowerCase()] throw; the [catch] returns the input. *)
Definition convertTo24Hour (time12 : string) : string :=
  if (time12 =? "")%string then EmptyString
  else if negb (JsText.includes (JsText.toLowerCase time12) "am")
          && negb (JsText.includes (JsText.toLowerCase time12) "pm")
  then time12
  else
    let '(timePart, period) := JsText.splitPeriod time12 in
    match JsString.Number <$> JsString.splitColon timePart with
    | Some hours :: Some minutes :: _ =>
        match period with
        | None => time12
        | Some period =>
            let hours :=
              if (JsText.toLowerCase period =? "pm")%string && negb (hours =? 12)
              then hours + 12
              else if (JsText.toLowerCase period =? "am")%string && (hours =? 12)
              then 0 else hours in
            (JsText.padStart 2 "0" (pretty hours) +:+ ":"
             +:+ JsText.padStart 2 "0" (pretty minutes))%string
        end
    | _ => time12
    end.

End CalendarView.

(** ** The time input ([TimeInput.tsx]) *)

Module TimeInput.

(** The result of [to12Hour]; [minutes] is undefined for a time with no
    colon. *)
Record Parts := {
  hours : string;
  minutes : option string;
  period : string;
}.

(** Convert 24h time to 12h format. *)
Definition to12Hour (time : string) : Parts :=
  let pieces := JsString.splitColon time in
  let hours := default EmptyString (pieces !! 0%nat) in
  let minutes := pieces !! 1%nat in
  let hoursNum := JsString.parseInt hours in
  {| hours :=
       match hoursNum with
       | Some h =>
           if h =? 0 then "12"%string
           else if 12 <? h then pretty (h - 12) else hours
       | None => hours
       end;
     minutes := minutes;
     period := if JsString.le (Some 12) hoursNum then "PM" else "AM" |}.

(** Convert 12h time back to 24h format; an undefined [minutes] prints as
    [undefined]. *)
Definition to24Hour (hours : string) (minutes : option string) (period : string)
  : string :=
  let hoursNum := JsString.parseInt hours in
  let hoursNum :=
    if (period =? "PM")%string
       && negb (bool_decide (hoursNum = Some 12))
    then (fun h => h + 12) <$> hoursNum else hoursNum in
  let hoursNum :=
    if (period =? "AM")%string && bool_decide (hoursNum = Some 12)
    then Some 0 else hoursNum in
  (JsText.padStart 2 "0" (JsText.numberToString hoursNum) +:+ ":"
   +:+ default "undefined"%string minutes)%string.

(** The options of the three selects. *)
Definition hourOptions : list string :=
  (fun i => pretty (Z.of_nat i + 1)) <$> seq 0 12.

Definition minuteOptions : list string :=
  (fun i => JsText.padStart 2 "0" (pretty (Z.of_nat i))) <$> seq 0 60.

Definition periodOptions : list string := ["AM"; "PM"]%string.

(** The three change handlers: what they pass to [onChange] when the
    input shows [value] and the user picks [selected]. *)
Definition handleHourChange (value selected : string) : string :=
  to24Hour selected (minutes (to12Hour value)) (period (to12Hour value)).

Definition handleMinuteChange (value selected : string) : string :=
  to24Hour (hours (to12Hour value)) (Some selected) (period (to12Hour value)).

Definition handlePeriodChange (value selected : string) : string :=
  to24Hour (hours (to12Hour value)) (minutes (to12Hour value)) selected.

End TimeInput.

(** ** Navigation, selection and keyboard ([CalendarView.tsx]) *)

Definition setCurrentDate (d : Z) (st : CalendarState) : CalendarState :=
  {| currentDate := d; history := history st;
     isModalOpen := isModalOpen st; selectedDate := selectedDate st;
     selectedEvent := selectedEvent st; modalMode := modalMode st;
     dragError := dragError st; resizingEvent := resizingEvent st;
     showSaveNotification := showSaveNotification st; alerts := alerts st |}.

Definition setSelectedDate (d : Z) (st : CalendarState) : CalendarState :=
  {| currentDate := currentDate st; history := history st;
     isModalOpen := isModalOpen st; selectedDate := d;
     selectedEvent := selectedEvent st; modalMode := modalMode st;
     dragError := dragError st; resizingEvent := resizingEvent st;
     showSaveNotification := showSaveNotification st; alerts := alerts st |}.

Definition setSelectedEvent (e : option CalendarEvent) (st : CalendarState)
  : CalendarState :=
  {| currentDate := currentDate st; history := history st;
     isModalOpen := isModalOpen st; selectedDate := selectedDate st;
     selectedEvent := e; modalMode := modalMode st;
     dragError := dragError st; resizingEvent := resizingEvent st;
     showSaveNotification := showSaveNotification st; alerts := alerts st |}.

(** [new Date(year, month)] is the first day of that month. *)
Definition handlePreviousMonth (st : CalendarState) : CalendarState :=
  setCurrentDate
    (JsDate.fromYMD (JsDate.getFullYear (currentDate st))
       (JsDate.getMonth (currentDate st) - 1) 1) st.

Definition handleNextMonth (st : CalendarState) : CalendarState :=
  setCurrentDate
    (JsDate.fromYMD (JsDate.getFullYear (currentDate st))
       (JsDate.getMonth (currentDate st) + 1) 1) st.

Definition handleDayClick (day : Z) (st : CalendarState) : CalendarState :=
  let clickedDate :=
    JsDate.setHoursZero
      (JsDate.fromYMD (JsDate.getFullYear (currentDate st))
         (JsDate.getMonth (currentDate st)) day) in
  setIsModalOpen true
    (setSelectedDate clickedDate
       (setModalMode create (setSelectedEvent None st))).

Definition handleEventClick (event : CalendarEvent) (st : CalendarState)
  : CalendarState :=
  setIsModalOpen true
    (setModalMode view
       (setSelectedDate (startDate event)
          (setSelectedEvent (Some event) st))).

Definition getDaysInMonth (date : Z) : Z :=
  JsDate.getDate
    (JsDate.fromYMD (JsDate.getFullYear date) (JsDate.getMonth date + 1) 0).

(** [t.getDay()], 0 for Sunday: day 0 was a Thursday. *)
Definition getDay (t : Z) : Z := (JsDate.Day t + 4) mod 7.

Definition getFirstDayOfMonth (date : Z) : Z :=
  getDay (JsDate.fromYMD (JsDate.getFullYear date) (JsDate.getMonth date) 1).

(** The time values a [Date] can hold: beyond them [new Date(...)] is an
    invalid date, every getter of which is [NaN].  The clip is taken here
    on the local value; the zone offset, under a day, is left out. *)
Definition maxTimeValue : Z := 8640000000000000.

Definition isValidTimeValue (t : Z) : bool :=
  (- maxTimeValue <=? t) && (t <=? maxTimeValue).

(** [isWeekend]; on an invalid date [getDay()] is [NaN] and both
    comparisons are false. *)
Definition isWeekend (currentDate day : Z) : bool :=
  let date :=
    JsDate.fromYMD (JsDate.getFullYear currentDate)
      (JsDate.getMonth currentDate) day in
  if isValidTimeValue date
  then (getDay date =? 0) || (getDay date =? 6)
  else false.

(** [isDragDisabled] of [renderEvent], for the event shown in the cell of
    [day]: an event can be dragged only from the cell of its first day,
    and not while it is being resized. *)
Definition isDragDisabled (st : CalendarState) (event : CalendarEvent) (day : Z)
  : bool :=
  let isFirstDay := JsDate.getDate (startDate event) =? day in
  let isResizing :=
    match resizingEvent st with
    | Some (i, _, _) => (i =? id event)%string
    | None => false
    end in
  negb isFirstDay || isResizing.

Record KeyboardEvent := {
  ctrlKey : bool;
  metaKey : bool;
  shiftKey : bool;
  key : string;
}.

(** [handleKeyPress], as an update of the history. *)
Definition handleKeyPress (e : KeyboardEvent) (h : HistoryState) : HistoryState :=
  if (ctrlKey e || metaKey e) && (key e =? "z")%string
  then if shiftKey e then redo h else undo h
  else h.

(** ** Filters and statistics ([CalendarView.tsx]) *)

#[global] Instance EventType_eq_dec : EqDecision EventType.
Proof. solve_decision. Defined.

(** The updater of [handleTypeToggle]. *)
Definition handleTypeToggle (type : EventType) (prev : list EventType)
  : list EventType :=
  if bool_decide (type ∈ prev)
  then
    if (length prev =? 1)%nat then prev
    else List.filter (fun t => negb (bool_decide (t = type))) prev
  else prev ++ [type].

(** [filteredEvents], from the present collection, the search query and
    the selected types. *)
Definition filteredEvents (events : list CalendarEvent) (searchQuery : string)
    (selectedTypes : list EventType) : list CalendarEvent :=
  let filtered := events in
  let filtered :=
    if negb (JsString.trim searchQuery =? "")%string
    then
      let query := JsText.toLowerCase searchQuery in
      List.filter (fun event =>
        let titleMatch := JsText.includes (JsText.toLowerCase (title event)) query in
        let descriptionMatch :=
          match description event with
          | Some d => JsText.includes (JsText.toLowerCase d) query
          | None => false
          end in
        titleMatch || descriptionMatch) filtered
    else filtered in
  List.filter (fun event => bool_decide (type event ∈ selectedTypes)) filtered.

Definition getFilteredEventsCount (filtered : list CalendarEvent) : nat :=
  length filtered.

(** The counters of [typeStats]. *)
Module Stats.
Record t := { work : Z; personal : Z; meeting : Z; other : Z }.
End Stats.

(** [stats[event.type]++] *)
Definition countType (stats : Stats.t) (ty : EventType) : Stats.t :=
  match ty with
  | work =>
      {| Stats.work := Stats.work stats + 1; Stats.personal := Stats.personal stats;
         Stats.meeting := Stats.meeting stats; Stats.other := Stats.other stats |}
  | personal =>
      {| Stats.work := Stats.work stats; Stats.personal := Stats.personal stats + 1;
         Stats.meeting := Stats.meeting stats; Stats.other := Stats.other stats |}
  | meeting =>
      {| Stats.work := Stats.work stats; Stats.personal := Stats.personal stats;
         Stats.meeting := Stats.meeting stats + 1; Stats.other := Stats.other stats |}
  | other =>
      {| Stats.work := Stats.work stats; Stats.personal := Stats.personal stats;
         Stats.meeting := Stats.meeting stats; Stats.other := Stats.other stats + 1 |}
  end.

Definition typeStats (events : list CalendarEvent) : Stats.t :=
  foldl (fun stats event => countType stats (type event))
    {| Stats.work := 0; Stats.personal := 0; Stats.meeting := 0; Stats.other := 0 |}
    events.

(** [Object.values(typeStats).reduce((a, b) => a + b, 0)] *)
Definition totalEvents (stats : Stats.t) : Z :=
  0 + Stats.work stats + Stats.personal stats + Stats.meeting stats
  + Stats.other stats.

(** [events.filter(event => isDateInEventRange(date, event))], with the
    date threaded through the calls. *)
Fixpoint eventsInRange (date : Z) (events : list CalendarEvent)
  : list CalendarEvent * Z :=
  match events with
  | [] => ([], date)
  | e :: rest =>
      let '(inRange, date) := isDateInEventRange date e in
      let '(kept, date) := eventsInRange date rest in
      (if inRange then e :: kept else kept, date)
  end.

(** [getEventsForDay], over the filtered events. *)
Definition getEventsForDay (currentDate : Z) (filtered : list CalendarEvent)
    (day : Z) : list CalendarEvent :=
  let targetDate :=
    JsDate.fromYMD (JsDate.getFullYear currentDate)
      (JsDate.getMonth currentDate) day in
  (eventsInRange targetDate filtered).1.

(** ** Vocabulary for the properties of the added code *)

(** The snapshots of a history in time order. *)
Definition timeline (h : HistoryState) : list (list CalendarEvent) :=
  past h ++ present h :: future h.

(** The Gregorian rule for leap years and the lengths of the months
    (month 1..12). *)
Definition isLeapYear (y : Z) : bool :=
  (y mod 4 =? 0) && (negb (y mod 100 =? 0) || (y mod 400 =? 0)).

Definition gregorianMonthLength (y m : Z) : Z :=
  if m =? 2 then (if isLeapYear y then 29 else 28)
  else if (m =? 4) || (m =? 6) || (m =? 9) || (m =? 11) then 30 else 31.

(** The event [e] is of type [ty]. *)
Definition hasType (ty : EventType) (e : CalendarEvent) : bool :=
  bool_decide (type e = ty).


(** The checks run over all digit quadruples: on a well-formed time, the
    time input gives the time back, each of its handlers emits a
    well-formed time for every option, and the calendar's two formatters
    are inverse. *)
Definition timeInputRoundTripOn (h1 h0 m1 m0 : ascii) : bool :=
  let time := timeOf h1 h0 m1 m0 in
  if wellFormedTime time
  then
    let parts := TimeInput.to12Hour time in
    bool_decide (TimeInput.to24Hour (TimeInput.hours parts)
                   (TimeInput.minutes parts) (TimeInput.period parts) = time)
  else true.

Definition timeInputClosedOn (h1 h0 m1 m0 : ascii) : bool :=
  let time := timeOf h1 h0 m1 m0 in
  if wellFormedTime time
  then
    forallb (fun o => wellFormedTime (TimeInput.handleHourChange time o))
      TimeInput.hourOptions
    && forallb (fun o => wellFormedTime (TimeInput.handleMinuteChange time o))
         TimeInput.minuteOptions
    && forallb (fun o => wellFormedTime (TimeInput.handlePeriodChange time o))
         TimeInput.periodOptions
  else true.

Definition formatRoundTripOn (h1 h0 m1 m0 : ascii) : bool :=
  let time := timeOf h1 h0 m1 m0 in
  if wellFormedTime time
  then bool_decide
         (CalendarView.convertTo24Hour (CalendarView.formatTime12Hour time) = time)
  else true.

Definition forallDigits4 (f : ascii → ascii → ascii → ascii → bool) : bool :=
  forallb (fun h1 => forallb (fun h0 => forallb (fun m1 =>
    forallb (fun m0 => f h1 h0 m1 m0) digitChars) digitChars) digitChars)
    digitChars.

(** ** Sample data

    The clock reads 2 November 2026, 10:00.  [standup] runs 09:00-10:00 on
    10 to 12 November; [review] runs 09:30-10:30 on 5 November; [trip]
    runs from 30 January to 2 February 2027. *)
Module Sample.

Definition clock : Z := JsDate.fromYMD 2026 10 2 + 10 * 3600000.

Definition standup : CalendarEvent :=
  {| id := "1"; title := "Standup"; description := Some ""%string;
     startDate := JsDate.fromYMD 2026 10 10;
     endDate := JsDate.fromYMD 2026 10 12;
     startTime := "09:00"; endTime := "10:00";
     type := meeting; isMultiDay := Some true |}.

Definition review : CalendarEvent :=
  {| id := "2"; title := "Review"; description := Some ""%string;
     startDate := JsDate.fromYMD 2026 10 5;
     endDate := JsDate.fromYMD 2026 10 5;
     startTime := "09:30"; endTime := "10:30";
     type := work; isMultiDay := Some false |}.

Definition trip : CalendarEvent :=
  {| id := "3"; title := "Trip"; description := Some ""%string;
     startDate := JsDate.fromYMD 2027 0 30;
     endDate := JsDate.fromYMD 2027 1 2;
     startTime := "09:00"; endTime := "10:00";
     type := personal; isMultiDay := Some false |}.

(** A calendar showing the month of [shown] with the events [events] and
    an empty log. *)
Definition calendar (shown : Z) (events : list CalendarEvent) : CalendarState :=
  {| currentDate := shown;
     history := {| past := []; present := events; future := [] |};
     isModalOpen := false; selectedDate := shown; selectedEvent := None;
     modalMode := create; dragError := None; resizingEvent := None;
     showSaveNotification := false; alerts := [] |}.

Definition november : CalendarState :=
  calendar (JsDate.fromYMD 2026 10 1) [standup; review].

Definition blankForm : EventData.t :=
  {| EventData.title := "   "; EventData.startTime := "09:00";
     EventData.endTime := "10:00"; EventData.description := "";
     EventData.type := other |}.

Definition createProps : Props.t :=
  {| Props.selectedDate := JsDate.fromYMD 2026 10 20;
     Props.selectedEvent := None; Props.mode := create;
     Props.eventsForDay := [] |}.

End Sample.

(** * Properties *)

(** ** History log *)

Section History.

Implicit Types (h : HistoryState) (c p : list CalendarEvent)
  (ps fs cs : list (list CalendarEvent)).

Lemma undo_empty p fs :
  undo {| past := []; present := p; future := fs |}
  = {| past := []; present := p; future := fs |}.
Proof. reflexivity. Qed.

Lemma undo_snoc ps p c fs :
  undo {| past := ps ++ [p]; present := c; future := fs |}
  = {| past := ps; present := p; future := c :: fs |}.
Proof.
  unfold undo; simpl.
  rewrite length_app; simpl.
  replace (length ps + 1 - 1)%nat with (length ps) by lia.
  destruct (Nat.eqb_spec (length ps + 1) 0); [lia|].
  rewrite take_app_length, list_lookup_middle by reflexivity.
  reflexivity.
Qed.

Lemma redo_empty ps p :
  redo {| past := ps; present := p; future := [] |}
  = {| past := ps; present := p; future := [] |}.
Proof. reflexivity. Qed.

Lemma redo_cons ps p c fs :
  redo {| past := ps; present := p; future := c :: fs |}
  = {| past := ps ++ [p]; present := c; future := fs |}.
Proof. reflexivity. Qed.

Lemma pushToHistory_future c h : future (pushToHistory c h) = [].
Proof. reflexivity. Qed.

(** The snapshots that lie between the oldest kept one and the newest
    one: [between p cs] is [p :: cs] without its last element. *)
Lemma commits_snoc cs c h :
  commits (cs ++ [c]) h = pushToHistory c (commits cs h).
Proof. unfold commits. rewrite foldl_app. reflexivity. Qed.

(** After the commits [c :: cs] on a state whose present is [p], the
    past has grown by [p :: c :: cs] without its last element, which is
    the present. *)
Lemma commits_shape cs : ∀ ps p fs c,
  ∃ mid last,
    p :: c :: cs = mid ++ [last]
    ∧ commits (c :: cs) {| past := ps; present := p; future := fs |}
      = {| past := ps ++ mid; present := last; future := [] |}.
Proof.
  induction cs as [|c' cs IH] using rev_ind; intros ps p fs c.
  - exists [p], c. split; reflexivity.
  - destruct (IH ps p fs c) as (mid & last & Heq & Hc).
    exists (mid ++ [last]), c'. split.
    + rewrite <- Heq. rewrite !app_comm_cons. reflexivity.
    + rewrite app_comm_cons, commits_snoc, Hc.
      unfold pushToHistory; simpl. rewrite <- app_assoc. reflexivity.
Qed.

(** Undoing as many times as there are snapshots in [mid]. *)
Lemma undo_iter mid : ∀ ps c fs,
  Nat.iter (length mid) undo
    {| past := ps ++ mid; present := c; future := fs |}
  = {| past := ps;
       present := hd c mid;
       future := tl (mid ++ [c]) ++ fs |}.
Proof.
  induction mid as [|x mid IH] using rev_ind; intros ps c fs.
  - simpl. rewrite app_nil_r. reflexivity.
  - rewrite length_app, Nat.add_comm; simpl length.
    rewrite Nat.iter_succ_r.
    rewrite app_assoc, undo_snoc, IH.
    f_equal.
    + destruct mid; reflexivity.
    + destruct mid; simpl; [reflexivity|].
      rewrite <- !app_assoc. reflexivity.
Qed.

(** Redoing all the entries of the future. *)
Lemma redo_iter fs : ∀ ps p,
  ∃ mid last,
    p :: fs = mid ++ [last]
    ∧ Nat.iter (length fs) redo {| past := ps; present := p; future := fs |}
      = {| past := ps ++ mid; present := last; future := [] |}.
Proof.
  induction fs as [|c fs IH]; intros ps p.
  - exists [], p. simpl. rewrite app_nil_r. split; reflexivity.
  - destruct (IH (ps ++ [p]) c) as (mid & last & Heq & Hr).
    exists (p :: mid), last. split.
    + rewrite Heq. reflexivity.
    + simpl length. rewrite Nat.iter_succ_r, redo_cons, Hr.
      rewrite <- app_assoc. reflexivity.
Qed.

(** Undoing [n] commits gives back the whole state before them, apart
    from the future, which now holds the [n] committed snapshots. *)
Lemma undo_commits cs h :
  cs ≠ [] →
  Nat.iter (length cs) undo (commits cs h)
  = {| past := past h; present := present h; future := cs |}.
Proof.
  destruct cs as [|c cs]; [congruence|]; intros _.
  destruct h as [ps p fs].
  destruct (commits_shape cs ps p fs c) as (mid & last & Heq & Hc).
  rewrite Hc.
  assert (Hlen : length (c :: cs) = length mid).
  { apply (f_equal length) in Heq. rewrite length_app in Heq.
    simpl in *. lia. }
  rewrite Hlen, undo_iter, app_nil_r. simpl.
  rewrite <- Heq. simpl. f_equal.
  destruct mid; simpl in *; congruence.
Qed.

Lemma redo_undo_commits cs h :
  cs ≠ [] →
  Nat.iter (length cs) redo (Nat.iter (length cs) undo (commits cs h))
  = commits cs h.
Proof.
  intros Hne. rewrite undo_commits by assumption.
  destruct cs as [|c cs]; [congruence|].
  destruct h as [ps p fs]. simpl past; simpl present.
  destruct (commits_shape cs ps p fs c) as (mid & last & Heq & Hc).
  destruct (redo_iter (c :: cs) ps p) as (mid' & last' & Heq' & Hr).
  rewrite Hr, Hc.
  rewrite Heq in Heq'. apply app_inj_tail in Heq' as [-> ->].
  reflexivity.
Qed.

End History.

(** The handlers that commit leave the future empty. *)
Lemma handleModalSave_clears_future (now : Z) (eventData : Draft.t)
    (st : CalendarState) :
  Draft.title eventData ≠ ""%string →
  future (history (handleModalSave now true eventData st)) = [].
Proof.
  intros Hne. unfold handleModalSave.
  destruct (String.eqb_spec (Draft.title eventData) ""); [contradiction|reflexivity].
Qed.

Lemma handleUpdateEvent_clears_future (updatedEvent : CalendarEvent)
    (st : CalendarState) :
  future (history (handleUpdateEvent true updatedEvent st)) = [].
Proof. reflexivity. Qed.

(** The scenario commit, commit, undo, redo: the present is that of the
    second commit and the past holds the two older snapshots, the initial
    one and that of the first commit. *)
Example commit_commit_undo_redo (h : HistoryState) (c1 c2 : list CalendarEvent) :
  redo (undo (pushToHistory c2 (pushToHistory c1 h)))
  = pushToHistory c2 (pushToHistory c1 h).
Proof.
  destruct h as [ps p fs]. unfold pushToHistory; simpl.
  rewrite undo_snoc. reflexivity.
Qed.

(** C1.  History law: after any run of commits [c1 .. cn] on any history
    state, [n] undos bring [present] back to its value before [c1], and [n]
    redos after that bring it to its value after [cn]. *)
Theorem history_undo_redo_law (h0 : HistoryState) (cs : list (list CalendarEvent)) :
  let n := length cs in
  let h := commits cs h0 in
  present (Nat.iter n undo h) = present h0
  ∧ present (Nat.iter n redo (Nat.iter n undo h)) = present h.
Proof.
  intros n h. subst n h.
  destruct cs as [|c cs]; [split; reflexivity|].
  split.
  - rewrite undo_commits by discriminate. reflexivity.
  - rewrite redo_undo_commits by discriminate. reflexivity.
Qed.

(** C2.  Branch discard: every commit leaves [future] empty, and after
    any number of undos followed by one commit a redo returns the state
    unchanged. *)
Theorem commit_discards_future (h : HistoryState) (c : list CalendarEvent) (k : nat) :
  future (pushToHistory c h) = []
  ∧ redo (pushToHistory c (Nat.iter k undo h)) = pushToHistory c (Nat.iter k undo h).
Proof. split; reflexivity. Qed.

(** ** Calendar arithmetic *)

Module JsDateFacts.
Import JsDate.

Ltac div_lia := Z.div_mod_to_equations; lia.

Lemma Day_setHoursZero t : Day (setHoursZero t) = Day t.
Proof. unfold setHoursZero, Day, msPerDay. div_lia. Qed.

Lemma setHoursZero_idem t : setHoursZero (setHoursZero t) = setHoursZero t.
Proof. unfold setHoursZero at 1. rewrite Day_setHoursZero. reflexivity. Qed.

Lemma setHoursZero_le t : setHoursZero t <= t.
Proof. unfold setHoursZero, Day, msPerDay. div_lia. Qed.

(** A time lies before local midnight of [now] exactly when its day is an
    earlier day. *)
Lemma lt_setHoursZero t now : t < setHoursZero now <-> Day t < Day now.
Proof. unfold setHoursZero, Day, msPerDay. div_lia. Qed.

Lemma setHoursZero_le_iff a b :
  setHoursZero a <= setHoursZero b <-> Day a <= Day b.
Proof. unfold setHoursZero, Day, msPerDay. div_lia. Qed.

Lemma midnight_le_iff d t : d * msPerDay <= t <-> d <= Day t.
Proof. unfold Day, msPerDay. div_lia. Qed.

Lemma Day_le a b : a <= b -> Day a <= Day b.
Proof. unfold Day, msPerDay. div_lia. Qed.

Lemma Day_add_days t k : Day (t + k * msPerDay) = Day t + k.
Proof. unfold Day, msPerDay. div_lia. Qed.

Lemma Day_decompose t : t = Day t * msPerDay + TimeWithinDay t.
Proof. unfold Day, TimeWithinDay, msPerDay. div_lia. Qed.

(** The day of the year, counted from the first of March, stays within
    one year. *)
Lemma dayOfYear_bound doe :
  0 <= doe <= 146096 ->
  let yoe := (doe - doe / 1460 + doe / 36524 - doe / 146096) / 365 in
  0 <= yoe <= 399 /\ 0 <= doe - (365 * yoe + yoe / 4 - yoe / 100) <= 365.
Proof. intros H yoe. subst yoe. div_lia. Qed.

Lemma civilFromDays_month z : 1 <= (civilFromDays z).1.2 <= 12.
Proof.
  unfold civilFromDays. cbn zeta.
  set (doe := z + 719468 - (z + 719468) / 146097 * 146097).
  assert (Hdoe : 0 <= doe <= 146096) by (subst doe; div_lia).
  destruct (dayOfYear_bound doe Hdoe) as [_ Hdoy].
  set (doy := doe - _) in *.
  simpl. destruct (Z.ltb_spec ((5 * doy + 2) / 153) 10); div_lia.
Qed.

(** Day number, to civil date, and back. *)
Lemma daysFromCivil_civilFromDays z :
  daysFromCivil (civilFromDays z).1.1 (civilFromDays z).1.2 (civilFromDays z).2
  = z.
Proof.
  unfold civilFromDays. cbn zeta.
  set (era := (z + 719468) / 146097).
  set (doe := z + 719468 - era * 146097).
  assert (Hdoe : 0 <= doe <= 146096) by (subst doe era; div_lia).
  destruct (dayOfYear_bound doe Hdoe) as [Hyoe Hdoy].
  set (yoe := (doe - doe / 1460 + doe / 36524 - doe / 146096) / 365) in *.
  set (doy := doe - (365 * yoe + yoe / 4 - yoe / 100)) in *.
  set (mp := (5 * doy + 2) / 153).
  assert (Hmp : 0 <= mp <= 11) by (subst mp; div_lia).
  simpl. unfold daysFromCivil.
  set (m := if mp <? 10 then mp + 3 else mp - 9).
  assert (Hm : (if 2 <? m then m - 3 else m + 9) = mp).
  { subst m. destruct (Z.ltb_spec mp 10).
    - destruct (Z.ltb_spec 2 (mp + 3)); lia.
    - destruct (Z.ltb_spec 2 (mp - 9)); lia. }
  rewrite Hm.
  replace (yoe + era * 400 + (if m <=? 2 then 1 else 0)
             - (if m <=? 2 then 1 else 0)) with (yoe + era * 400) by lia.
  assert (Hera : (yoe + era * 400) / 400 = era) by div_lia.
  rewrite Hera.
  replace (yoe + era * 400 - era * 400) with yoe by lia.
  subst doy doe. lia.
Qed.

Lemma daysFromCivil_day y m d d' :
  daysFromCivil y m d' = daysFromCivil y m d + (d' - d).
Proof. unfold daysFromCivil. lia. Qed.

(** [MakeDay] on the year and month of [t]: the day of [t], moved by the
    difference of the dates. *)
Lemma MakeDay_of_date t d :
  MakeDay (getFullYear t) (getMonth t) d = Day t + (d - getDate t).
Proof.
  unfold MakeDay, getFullYear, getMonth, getDate.
  pose proof (civilFromDays_month (Day t)) as Hm.
  set (c := civilFromDays (Day t)) in *.
  replace ((c.1.2 - 1) / 12) with 0 by div_lia.
  replace ((c.1.2 - 1) mod 12 + 1) with (c.1.2) by div_lia.
  rewrite Z.add_0_r.
  rewrite (daysFromCivil_day _ _ (c.2) 1).
  unfold c. rewrite daysFromCivil_civilFromDays. lia.
Qed.

(** [t.setDate(t.getDate() + k)] moves [t] by [k] whole days. *)
Lemma setDate_getDate_add t k :
  setDate t (getDate t + k) = t + k * msPerDay.
Proof.
  unfold setDate. rewrite MakeDay_of_date.
  pose proof (Day_decompose t) as Ht. unfold msPerDay in *. lia.
Qed.

Lemma fromYMD_midnight y m d : setHoursZero (fromYMD y m d) = fromYMD y m d.
Proof. unfold setHoursZero, fromYMD, Day, msPerDay. div_lia. Qed.

End JsDateFacts.

(** ** The drop validator *)

Section Validator.
Import JsDate JsDateFacts.

Variables (event : CalendarEvent) (events : list CalendarEvent).

Local Abbreviation conflictOn := (conflictOn event events).

Lemma isDateInEventRange_spec date e :
  isDateInEventRange date e = (occupies e (Day date), setHoursZero date).
Proof.
  unfold isDateInEventRange, occupies. f_equal. f_equal.
  - destruct (Z.leb_spec (setHoursZero (startDate e)) (setHoursZero date)) as [H|H];
      destruct (Z.leb_spec (Day (startDate e)) (Day date)) as [H'|H'];
      try reflexivity; exfalso.
    + apply setHoursZero_le_iff in H. lia.
    + apply setHoursZero_le_iff in H'. lia.
  - destruct (Z.leb_spec (setHoursZero date) (setHoursZero (endDate e))) as [H|H];
      destruct (Z.leb_spec (Day date) (Day (endDate e))) as [H'|H'];
      try reflexivity; exfalso.
    + apply setHoursZero_le_iff in H. lia.
    + apply setHoursZero_le_iff in H'. lia.
Qed.

(** The filter keeps the other events that occupy the day of
    [currentDate]; unless the collection is empty, it leaves
    [currentDate] at midnight. *)
Lemma dayEventsFilter_spec eid l : ∀ cur,
  dayEventsFilter eid cur l
  = (List.filter (fun e => occupies e (Day cur) && negb (id e =? eid)%string) l,
     match l with [] => cur | _ => setHoursZero cur end).
Proof.
  induction l as [|e l IH]; intros cur; [reflexivity|].
  cbn [dayEventsFilter List.filter].
  rewrite isDateInEventRange_spec, IH, Day_setHoursZero.
  destruct (occupies e (Day cur) && negb (id e =? eid)%string);
    destruct l; rewrite ?setHoursZero_idem; reflexivity.
Qed.

Lemma existsb_filter {A} (p q : A → bool) (l : list A) :
  existsb q (List.filter p l) = existsb (fun x => p x && q x) l.
Proof.
  induction l as [|x l IH]; [reflexivity|]. simpl.
  destruct (p x); simpl; rewrite IH; reflexivity.
Qed.

Lemma dayEvents_conflict cur :
  existsb (hasConflict event) (dayEventsFilter (id event) cur events).1
  = conflictOn (Day cur).
Proof. rewrite dayEventsFilter_spec. simpl. apply existsb_filter. Qed.

Lemma conflictOn_nil d : events = [] → conflictOn d = false.
Proof. unfold conflictOn. intros ->. reflexivity. Qed.

Lemma conflictOn_intro d other :
  In other events → id other ≠ id event →
  Day (startDate other) <= d <= Day (endDate other) →
  hasConflict event other = true →
  conflictOn d = true.
Proof.
  intros Hin Hid [Hs He] Hc. unfold conflictOn.
  apply existsb_exists. exists other. split; [assumption|].
  unfold occupies. rewrite Hc.
  destruct (String.eqb_spec (id other) (id event)); [contradiction|].
  destruct (Z.leb_spec (Day (startDate other)) d); [|lia].
  destruct (Z.leb_spec d (Day (endDate other))); [|lia].
  reflexivity.
Qed.

Lemma conflictOn_elim d :
  conflictOn d = true →
  ∃ other, In other events ∧ id other ≠ id event
           ∧ Day (startDate other) <= d <= Day (endDate other)
           ∧ hasConflict event other = true.
Proof.
  unfold conflictOn. intros H. apply existsb_exists in H as (other & Hin & H).
  apply andb_true_iff in H as [H Hc]. apply andb_true_iff in H as [Ho Hid].
  unfold occupies in Ho. apply andb_true_iff in Ho as [Hs He].
  exists other. repeat split; try assumption; try lia.
  intros Heq. rewrite Heq, String.eqb_refl in Hid. discriminate.
Qed.

(** The loop, given enough fuel: it rejects with [TimeConflict] when some
    day from the day of [cur] to the day of [newEnd] carries a conflict,
    and accepts when none does. *)
Lemma dropLoop_spec newEnd fuel : ∀ cur,
  (Z.to_nat (Day newEnd - Day cur + 1) < fuel)%nat →
  (dropLoop fuel event events cur newEnd = Some (Reject TimeConflict)
   ∧ cur <= newEnd
   ∧ ∃ d, Day cur <= d <= Day newEnd ∧ conflictOn d = true)
  ∨ (dropLoop fuel event events cur newEnd = Some Accept
     ∧ (cur <= newEnd → ∀ d, Day cur <= d <= Day newEnd → conflictOn d = false)).
Proof.
  induction fuel as [|fuel IH]; intros cur Hfuel; [lia|].
  cbn [dropLoop].
  destruct (Z.leb_spec cur newEnd) as [Hle|Hgt]; [|right; split; [reflexivity|lia]].
  pose proof (Day_le _ _ Hle) as HD.
  pose proof (dayEvents_conflict cur) as Hc.
  rewrite dayEventsFilter_spec in Hc |- *. cbn [fst] in Hc.
  cbv beta iota zeta. rewrite Hc. clear Hc.
  destruct (conflictOn (Day cur)) eqn:Hnow.
  { left. split; [reflexivity|]. split; [assumption|].
    exists (Day cur). split; [lia|assumption]. }
  rewrite setDate_getDate_add, Z.mul_1_l.
  set (cur1 := match events with [] => cur | _ => setHoursZero cur end).
  assert (HD1 : Day (cur1 + msPerDay) = Day cur + 1).
  { replace (cur1 + msPerDay) with (cur1 + 1 * msPerDay) by lia.
    rewrite Day_add_days. subst cur1.
    destruct events; rewrite ?Day_setHoursZero; reflexivity. }
  destruct (IH (cur1 + msPerDay)) as [(Hr & Hle' & d & Hd & Hcd)|(Hr & Hnone)].
  { rewrite HD1. lia. }
  - left. split; [assumption|]. split; [assumption|].
    exists d. split; [lia|assumption].
  - right. split; [assumption|]. intros _ d Hd.
    destruct (Z.eq_dec d (Day cur)) as [->|Hne]; [assumption|].
    destruct events as [|e0 l] eqn:Hev.
    + reflexivity.
    + apply Hnone; [|lia].
      subst cur1. unfold setHoursZero.
      replace (Day cur * msPerDay + msPerDay) with ((Day cur + 1) * msPerDay) by lia.
      apply midnight_le_iff. lia.
Qed.

Lemma dropFuel_enough newStart newEnd :
  (Z.to_nat (Day newEnd - Day newStart + 1) < dropFuel newStart newEnd)%nat.
Proof. unfold dropFuel. lia. Qed.

(** The validator always answers. *)
Lemma isValidDropDate_total now now' newStart newEnd :
  ∃ v, isValidDropDate now now' events event newStart newEnd = Some v.
Proof.
  unfold isValidDropDate.
  destruct (_ <? _); [eauto|]. destruct (_ <? _); [eauto|].
  destruct (dropLoop_spec newEnd _ newStart (dropFuel_enough newStart newEnd))
    as [(-> & _)|(-> & _)]; eauto.
Qed.

(** Once the two date guards are passed, the verdict is that of the loop
    over the days of the range. *)
Lemma isValidDropDate_conflict_iff now now' newStart newEnd :
  setHoursZero now <= newStart →
  newStart <= setFullYear now' (getFullYear now' + 1) →
  (isValidDropDate now now' events event newStart newEnd
     = Some (Reject TimeConflict)
   ↔ newStart <= newEnd
     ∧ ∃ d, Day newStart <= d <= Day newEnd ∧ conflictOn d = true)
  ∧ (isValidDropDate now now' events event newStart newEnd = Some Accept
     ∨ isValidDropDate now now' events event newStart newEnd
       = Some (Reject TimeConflict)).
Proof.
  intros Hpast Hhorizon. unfold isValidDropDate.
  destruct (Z.ltb_spec newStart (setHoursZero now)); [lia|].
  destruct (Z.ltb_spec (setFullYear now' (getFullYear now' + 1)) newStart); [lia|].
  destruct (dropLoop_spec newEnd _ newStart (dropFuel_enough newStart newEnd))
    as [(-> & Hle & Hex)|(-> & Hnone)].
  - split; [|right; reflexivity]. split; [auto|reflexivity].
  - split; [|left; reflexivity]. split; [discriminate|].
    intros (Hle & d & Hd & Hc). rewrite (Hnone Hle d Hd) in Hc. discriminate.
Qed.

End Validator.

(** C3.  The validator rejects with [PastDate] exactly when the day of the
    proposed start is strictly before the current day; the times of day of
    the start and of the clock play no part. *)
Theorem past_date_iff_earlier_day (now now' : Z) (events : list CalendarEvent)
    (event : CalendarEvent) (newStartDate newEndDate : Z) :
  isValidDropDate now now' events event newStartDate newEndDate
    = Some (Reject PastDate)
  ↔ JsDate.Day newStartDate < JsDate.Day now.
Proof.
  unfold isValidDropDate.
  destruct (Z.ltb_spec newStartDate (JsDate.setHoursZero now)) as [H|H].
  - apply JsDateFacts.lt_setHoursZero in H. split; [intros _; assumption|reflexivity].
  - assert (Hn : ¬ JsDate.Day newStartDate < JsDate.Day now).
    { intros Hd. apply JsDateFacts.lt_setHoursZero in Hd. lia. }
    split; [|contradiction]. intros Hr. exfalso.
    destruct (_ <? _); [discriminate|].
    destruct (dropLoop_spec event events newEndDate _ newStartDate
                (dropFuel_enough newStartDate newEndDate))
      as [(Hl & _)|(Hl & _)]; rewrite Hl in Hr; discriminate.
Qed.

(** C4.  When another event of the collection occupies some day of the
    proposed range and its time range meets the candidate's under the test
    [aStart < bEnd && aEnd > bStart], the placement is rejected, whatever
    day of the range that is; the reason is [TimeConflict] once the two
    date guards that come first are passed. *)
Theorem conflict_on_any_day_rejected (now now' : Z) (events : list CalendarEvent)
    (event other : CalendarEvent) (newStartDate newEndDate d : Z) :
  newStartDate <= newEndDate →
  JsDate.Day newStartDate <= d <= JsDate.Day newEndDate →
  In other events →
  id other ≠ id event →
  JsDate.Day (startDate other) <= d <= JsDate.Day (endDate other) →
  hasConflict event other = true →
  ∃ reason,
    isValidDropDate now now' events event newStartDate newEndDate
      = Some (Reject reason)
    ∧ (JsDate.setHoursZero now <= newStartDate →
       newStartDate <= JsDate.setFullYear now' (JsDate.getFullYear now' + 1) →
       reason = TimeConflict).
Proof.
  intros Hle Hd Hin Hid Hocc Hc.
  pose proof (conflictOn_intro event events d other Hin Hid Hocc Hc) as Hon.
  destruct (Z.ltb_spec newStartDate (JsDate.setHoursZero now)) as [Hp|Hp].
  { exists PastDate. unfold isValidDropDate.
    destruct (Z.ltb_spec newStartDate (JsDate.setHoursZero now)); [|lia].
    split; [reflexivity|lia]. }
  destruct (Z.ltb_spec (JsDate.setFullYear now' (JsDate.getFullYear now' + 1))
              newStartDate) as [Hh|Hh].
  { exists HorizonExceeded. unfold isValidDropDate.
    destruct (Z.ltb_spec newStartDate (JsDate.setHoursZero now)); [lia|].
    destruct (Z.ltb_spec (JsDate.setFullYear now' (JsDate.getFullYear now' + 1))
                newStartDate); [|lia].
    split; [reflexivity|lia]. }
  exists TimeConflict. split; [|reflexivity].
  apply (isValidDropDate_conflict_iff event events now now' _ _ Hp Hh).
  split; [assumption|]. exists d. split; assumption.
Qed.

(** ** The two encodings of a time of day *)

Section TimeEncodings.
Import JsString.

(** The number the validator compares: [parseInt(time.replace(":", ""))]. *)
Local Abbreviation hhmm time := (parseInt (removeFirstColon time)).

Lemma isDigit_digitChars c : isDigit c = true → In c digitChars.
Proof.
  destruct c as [b0 b1 b2 b3 b4 b5 b6 b7].
  destruct b0, b1, b2, b3, b4, b5, b6, b7; vm_compute;
    intros H; try discriminate H; tauto.
Qed.

Lemma encodingsAgreeOn_digits :
  forallb (fun h1 => forallb (fun h0 => forallb (fun m1 =>
    forallb (fun m0 => encodingsAgreeOn h1 h0 m1 m0) digitChars)
    digitChars) digitChars) digitChars = true.
Proof. vm_compute. reflexivity. Qed.

(** A well-formed time reads as [100 * h + m] in the validator and as
    [60 * h + m] in [timeToMinutes], for the same [h] and [m < 60]. *)
Lemma wellFormedTime_values time :
  wellFormedTime time = true →
  ∃ h m, 0 <= h ∧ 0 <= m <= 59
         ∧ hhmm time = Some (100 * h + m)
         ∧ timeToMinutes time = Some (60 * h + m).
Proof.
  intros Hwf.
  destruct time as [|h1 [|h0 [|c [|m1 [|m0 [|? ?]]]]]]; try discriminate Hwf.
  assert (Hparts : isDigit h1 = true ∧ isDigit h0 = true ∧ c = ":"%char
                   ∧ isDigit m1 = true ∧ isDigit m0 = true).
  { cbn [wellFormedTime] in Hwf.
    do 6 (apply andb_true_iff in Hwf as [Hwf ?]).
    repeat split; try assumption. apply Ascii.eqb_eq. assumption. }
  destruct Hparts as (H1 & H0 & -> & M1 & M0).
  pose proof encodingsAgreeOn_digits as Hall.
  rewrite forallb_forall in Hall.
  specialize (Hall h1 (isDigit_digitChars _ H1)).
  rewrite forallb_forall in Hall.
  specialize (Hall h0 (isDigit_digitChars _ H0)).
  rewrite forallb_forall in Hall.
  specialize (Hall m1 (isDigit_digitChars _ M1)).
  rewrite forallb_forall in Hall.
  specialize (Hall m0 (isDigit_digitChars _ M0)).
  unfold encodingsAgreeOn, timeOf in Hall. rewrite Hwf in Hall.
  do 4 (apply andb_true_iff in Hall as [Hall ?]).
  apply bool_decide_eq_true in Hall.
  match goal with H : bool_decide _ = true |- _ => apply bool_decide_eq_true in H end.
  eexists _, _. repeat split; try eassumption; lia.
Qed.

(** With minutes below 60, the order of the [HHMM] numbers is the order
    of the minute counts. *)
Lemma hhmm_order h m h' m' :
  0 <= m <= 59 → 0 <= m' <= 59 →
  (100 * h + m <? 100 * h' + m') = (60 * h + m <? 60 * h' + m').
Proof.
  intros Hm Hm'.
  destruct (Z.ltb_spec (100 * h + m) (100 * h' + m'));
    destruct (Z.ltb_spec (60 * h + m) (60 * h' + m')); lia.
Qed.

Lemma lt_encodings a b :
  wellFormedTime a = true → wellFormedTime b = true →
  lt (hhmm a) (hhmm b) = lt (timeToMinutes a) (timeToMinutes b).
Proof.
  intros Ha Hb.
  destruct (wellFormedTime_values a Ha) as (h & m & _ & Hm & -> & ->).
  destruct (wellFormedTime_values b Hb) as (h' & m' & _ & Hm' & -> & ->).
  simpl. apply hhmm_order; assumption.
Qed.

End TimeEncodings.

(** C10.  On well-formed 24-hour times the overlap verdict of the drop
    validator, which compares the [HHMM] numbers, equals that of
    [doTimesOverlap], which compares minutes. *)
Theorem hhmm_overlap_agrees_with_minutes (event existingEvent : CalendarEvent) :
  wellFormedTime (startTime event) = true →
  wellFormedTime (endTime event) = true →
  wellFormedTime (startTime existingEvent) = true →
  wellFormedTime (endTime existingEvent) = true →
  hasConflict event existingEvent
  = doTimesOverlap (startTime event) (endTime event)
      (startTime existingEvent) (endTime existingEvent).
Proof.
  intros Hs He Hs' He'. unfold hasConflict, doTimesOverlap, JsString.gt.
  rewrite (lt_encodings _ _ Hs He'), (lt_encodings _ _ Hs' He).
  reflexivity.
Qed.

(** ** Event store *)

Lemma filter_absent (eventId : string) (events : list CalendarEvent) :
  (∀ e, In e events → id e ≠ eventId) →
  List.filter (fun event => negb (id event =? eventId)%string) events = events.
Proof.
  induction events as [|e l IH]; intros Habs; [reflexivity|]. simpl.
  destruct (String.eqb_spec (id e) eventId) as [Heq|_].
  - exfalso. apply (Habs e); [left; reflexivity|assumption].
  - simpl. f_equal. apply IH. intros e' Hin. apply Habs. right. assumption.
Qed.

Lemma filter_twice {A} (p : A → bool) (l : list A) :
  List.filter p (List.filter p l) = List.filter p l.
Proof.
  induction l as [|x l IH]; [reflexivity|]. simpl.
  destruct (p x) eqn:Hp; simpl; rewrite ?Hp, IH; reflexivity.
Qed.

Lemma map_absent (updatedEvent : CalendarEvent) (events : list CalendarEvent) :
  (∀ e, In e events → id e ≠ id updatedEvent) →
  List.map (fun event =>
    if (id event =? id updatedEvent)%string then updatedEvent else event) events
  = events.
Proof.
  induction events as [|e l IH]; intros Habs; [reflexivity|]. simpl.
  destruct (String.eqb_spec (id e) (id updatedEvent)) as [Heq|_].
  - exfalso. apply (Habs e); [left; reflexivity|assumption].
  - f_equal. apply IH. intros e' Hin. apply Habs. right. assumption.
Qed.

(** C6.  Deleting is idempotent on the collection, and deleting an
    identity the collection does not hold leaves the collection as it is
    and raises no alert. *)
Theorem delete_idempotent_absent_noop (st : CalendarState) (eventId : string) :
  let deleted := handleDeleteEvent eventId st in
  present (history (handleDeleteEvent eventId deleted)) = present (history deleted)
  ∧ ((∀ e, In e (present (history st)) → id e ≠ eventId) →
     present (history deleted) = present (history st))
  ∧ alerts deleted = alerts st.
Proof.
  simpl. split; [apply filter_twice|]. split; [apply filter_absent|reflexivity].
Qed.

Lemma delete_idempotent_absent_noop_witness :
  (∀ e, In e (present (history Sample.november)) → id e ≠ "9"%string)
  ∧ present (history (handleDeleteEvent "9" Sample.november))
    = present (history Sample.november).
Proof.
  assert (H : ∀ e, In e (present (history Sample.november)) → id e ≠ "9"%string).
  { intros e [<-|[<-|[]]]; discriminate. }
  split; [exact H|].
  exact (proj1 (proj2 (delete_idempotent_absent_noop Sample.november "9")) H).
Defined.

(** The delete handler still records a history entry when nothing was
    removed. *)
Lemma handleDeleteEvent_pushes (st : CalendarState) (eventId : string) :
  past (history (handleDeleteEvent eventId st))
  = past (history st) ++ [present (history st)]
  ∧ future (history (handleDeleteEvent eventId st)) = [].
Proof. split; reflexivity. Qed.

(** C7, as the code has it.  With the store answering, an update puts the
    given event in the place of every element that has its identity; when
    no element has it the collection is unchanged and the update is
    committed and reported like any other: a history entry is pushed, the
    save notification is shown and nothing is alerted. *)
Theorem update_absent_committed_silently (st : CalendarState)
    (updatedEvent : CalendarEvent) :
  let updated := handleUpdateEvent true updatedEvent st in
  present (history updated)
  = List.map (fun event =>
      if (id event =? id updatedEvent)%string then updatedEvent else event)
      (present (history st))
  ∧ ((∀ e, In e (present (history st)) → id e ≠ id updatedEvent) →
     present (history updated) = present (history st)
     ∧ past (history updated) = past (history st) ++ [present (history st)]
     ∧ showSaveNotification updated = true
     ∧ alerts updated = alerts st).
Proof.
  simpl. split; [reflexivity|]. intros Habs.
  rewrite (map_absent _ _ Habs). repeat split; reflexivity.
Qed.

Lemma update_absent_committed_silently_witness :
  (∀ e, In e (present (history Sample.november)) → id e ≠ id Sample.trip)
  ∧ showSaveNotification (handleUpdateEvent true Sample.trip Sample.november) = true.
Proof.
  assert (H : ∀ e, In e (present (history Sample.november)) → id e ≠ id Sample.trip).
  { intros e [<-|[<-|[]]]; discriminate. }
  split; [exact H|].
  exact (proj1 (proj2 (proj2
           (proj2 (update_absent_committed_silently Sample.november Sample.trip) H)))).
Defined.

(** C7 as stated fails: updating [trip], which the collection does not
    hold, alerts nothing, shows the save notification and changes the
    history. *)
Lemma update_absent_not_signalled :
  let st := Sample.november in
  let updated := handleUpdateEvent true Sample.trip st in
  (∀ e, In e (present (history st)) → id e ≠ id Sample.trip)
  ∧ alerts updated = alerts st
  ∧ showSaveNotification updated = true
  ∧ history updated ≠ history st.
Proof.
  cbv zeta. split; [intros e [<-|[<-|[]]]; discriminate|].
  split; [reflexivity|]. split; [reflexivity|]. discriminate.
Qed.

(** The only failure the update handler reports is that of the store. *)
Lemma handleUpdateEvent_store_failure (st : CalendarState)
    (updatedEvent : CalendarEvent) :
  handleUpdateEvent false updatedEvent st
  = alert "Failed to update event. Please try again." st.
Proof. reflexivity. Qed.

(** ** Creating an event through the modal *)

(** C8.  Submitting the form with a title that is empty after trimming is
    rejected with the title error; the calendar state, and so [present] and
    the whole history, is the one before. *)
Theorem create_empty_title_rejected (now : Z) (saveOk : bool) (props : Props.t)
    (eventData : EventData.t) (st : CalendarState) :
  JsString.trim (EventData.title eventData) = ""%string →
  ∃ errors,
    EventModal.handleSubmit now saveOk props eventData st = (errors, st)
    ∧ errors !! "title"%string = Some "Title is required"%string.
Proof.
  intros Htitle. unfold EventModal.handleSubmit, EventModal.validateForm.
  rewrite Htitle. cbn [String.eqb].
  set (e1 := <["title"%string := "Title is required"%string]> (∅ : gmap string string)).
  set (e2 := match validateTimeRange _ _ with
             | Some err => <["endTime"%string := err]> e1
             | None => e1
             end).
  set (e3 := match findOverlappingEvent _ _ _ _ _ with
             | Some ov => <["time"%string := _]> e2
             | None => e2
             end).
  assert (H1 : e1 !! "title"%string = Some "Title is required"%string)
    by apply lookup_insert_eq.
  assert (H2 : e2 !! "title"%string = Some "Title is required"%string).
  { subst e2. destruct (validateTimeRange _ _); [|exact H1].
    rewrite lookup_insert_ne by discriminate. exact H1. }
  assert (H3 : e3 !! "title"%string = Some "Title is required"%string).
  { subst e3. destruct (findOverlappingEvent _ _ _ _ _); [|exact H2].
    rewrite lookup_insert_ne by discriminate. exact H2. }
  assert (Hne : e3 ≠ ∅).
  { intros Heq. rewrite Heq, lookup_empty in H3. discriminate. }
  rewrite (bool_decide_eq_false_2 _ Hne). simpl.
  exists e3. split; [reflexivity|exact H3].
Qed.

Lemma create_empty_title_rejected_witness :
  JsString.trim (EventData.title Sample.blankForm) = ""%string
  ∧ ∃ errors,
      EventModal.handleSubmit Sample.clock true Sample.createProps
        Sample.blankForm Sample.november = (errors, Sample.november)
      ∧ errors !! "title"%string = Some "Title is required"%string.
Proof.
  split; [reflexivity|].
  apply (create_empty_title_rejected Sample.clock true Sample.createProps
           Sample.blankForm Sample.november).
  reflexivity.
Defined.

(** The save handler by itself tests the title before trimming it: the
    empty title is refused with an alert and no change of the history. *)
Lemma handleModalSave_empty_title (now : Z) (saveOk : bool) (eventData : Draft.t)
    (st : CalendarState) :
  Draft.title eventData = ""%string →
  handleModalSave now saveOk eventData st = alert "Please enter an event title" st.
Proof. intros H. unfold handleModalSave. rewrite H. reflexivity. Qed.

(** ** Rejected gestures *)

Lemma history_setDragError e st : history (setDragError e st) = history st.
Proof. reflexivity. Qed.

Lemma history_setResizingEvent r st : history (setResizingEvent r st) = history st.
Proof. reflexivity. Qed.



(** ** Witnesses for the validator *)

(** The review placed on 11 November, an interior day of the standup. *)
Lemma conflict_on_any_day_rejected_witness :
  isValidDropDate Sample.clock Sample.clock [Sample.standup; Sample.review]
    Sample.review (JsDate.fromYMD 2026 10 11) (JsDate.fromYMD 2026 10 11)
  = Some (Reject TimeConflict).
Proof.
  destruct (conflict_on_any_day_rejected Sample.clock Sample.clock
              [Sample.standup; Sample.review] Sample.review Sample.standup
              (JsDate.fromYMD 2026 10 11) (JsDate.fromYMD 2026 10 11)
              (JsDate.Day (JsDate.fromYMD 2026 10 11)))
    as (reason & Hr & Hguards).
  - vm_compute; congruence.
  - split; vm_compute; congruence.
  - left; reflexivity.
  - discriminate.
  - split; vm_compute; congruence.
  - reflexivity.
  - rewrite Hr. do 2 f_equal. apply Hguards; vm_compute; congruence.
Defined.

Lemma hhmm_overlap_agrees_with_minutes_witness :
  wellFormedTime (startTime Sample.review) = true
  ∧ hasConflict Sample.review Sample.standup
    = doTimesOverlap (startTime Sample.review) (endTime Sample.review)
        (startTime Sample.standup) (endTime Sample.standup).
Proof.
  split; [reflexivity|].
  apply (hhmm_overlap_agrees_with_minutes Sample.review Sample.standup);
    reflexivity.
Defined.

(** ** Moving an event *)

Section Move.
Import JsDate JsDateFacts.

Lemma Day_as_civil t :
  Day t = daysFromCivil (getFullYear t) (getMonth t + 1) (getDate t).
Proof.
  unfold getFullYear, getMonth, getDate.
  replace ((civilFromDays (Day t)).1.2 - 1 + 1) with ((civilFromDays (Day t)).1.2) by lia.
  symmetry. apply daysFromCivil_civilFromDays.
Qed.

(** Within one month the difference of the dates is the number of days
    between two times. *)
Lemma getDate_diff_same_month s e :
  getFullYear s = getFullYear e → getMonth s = getMonth e →
  getDate e - getDate s = Day e - Day s.
Proof.
  intros Hy Hm. rewrite (Day_as_civil s), (Day_as_civil e), Hy, Hm.
  rewrite (daysFromCivil_day _ _ (getDate s) (getDate e)). lia.
Qed.

(** The target range of a drop is as many days long as the difference of
    the dates of the month of the event's end and start. *)
Lemma dropRange_length shown event destDay :
  Day (dropRange shown event destDay).2 - Day (dropRange shown event destDay).1
  = getDate (endDate event) - getDate (startDate event).
Proof.
  unfold dropRange. cbn [fst snd].
  rewrite setDate_getDate_add, Day_add_days. lia.
Qed.

(** So an event that starts and ends in the same month keeps its length. *)
Lemma dropRange_same_month shown event destDay :
  getFullYear (startDate event) = getFullYear (endDate event) →
  getMonth (startDate event) = getMonth (endDate event) →
  Day (dropRange shown event destDay).2 - Day (dropRange shown event destDay).1
  = Day (endDate event) - Day (startDate event).
Proof.
  intros Hy Hm. rewrite dropRange_length.
  apply getDate_diff_same_month; assumption.
Qed.

End Move.

(** The trip is a state the calendar reaches by its own handlers: created
    on 30 January 2027, then its end dragged 150 pixels, three days. *)
Lemma trip_reachable :
  let created :=
    handleModalSave Sample.clock true
      {| Draft.title := "Trip"; Draft.description := "";
         Draft.startDate := JsDate.fromYMD 2027 0 30;
         Draft.endDate := JsDate.fromYMD 2027 0 30;
         Draft.startTime := "09:00"; Draft.endTime := "10:00";
         Draft.type := personal |}
      (Sample.calendar (JsDate.fromYMD 2027 0 30) []) in
  match present (history created) with
  | [e0] =>
      dateRanges <$> handleResize Sample.clock Sample.clock e0 30 atEnd 150 created
      = Some [(startDate Sample.trip, endDate Sample.trip)]
  | _ => False
  end.
Proof. vm_compute. reflexivity. Qed.

(** C5 fails on an event that runs over the end of a month.  The trip, 30
    January to 2 February 2027, is three days long.  With January 2027
    shown, the cell of day 30 shows it and lets it be dragged; dropped on
    day 10 the drop is accepted and the event then runs from 10 January
    back to 13 December 2026, 28 days earlier: [daysDiff] is the
    difference of the days of the month, 2 - 30. *)
Theorem drag_across_month_end_loses_duration :
  let january := Sample.calendar (JsDate.fromYMD 2027 0 1) [Sample.trip] in
  let dropped := handleDragEnd Sample.clock Sample.clock "3" (Some 10) january in
  getEventsForDay (currentDate january) (present (history january)) 30
    = [Sample.trip]
  ∧ isDragDisabled january Sample.trip 30 = false
  ∧ JsDate.Day (endDate Sample.trip) - JsDate.Day (startDate Sample.trip) = 3
  ∧ dragError <$> dropped = Some None
  ∧ dateRanges <$> dropped
    = Some [(JsDate.fromYMD 2027 0 10, JsDate.fromYMD 2026 11 13)]
  ∧ JsDate.Day (JsDate.fromYMD 2026 11 13) - JsDate.Day (JsDate.fromYMD 2027 0 10)
    = -28.
Proof. vm_compute. repeat split; reflexivity. Qed.

(** ** The handlers always return *)

Lemma handleDragEnd_total (now now' : Z) (draggableId : string)
    (destination : option Z) (st : CalendarState) :
  ∃ st', handleDragEnd now now' draggableId destination st = Some st'.
Proof.
  unfold handleDragEnd. destruct destination as [destDay|]; [|eauto].
  destruct (List.find _ _) as [event|]; [|eauto].
  destruct (dropRange _ _ _) as [s e].
  destruct (isValidDropDate_total event (present (history st)) now now' s e)
    as [v ->].
  destruct v; simpl; eauto.
Qed.

Lemma handleResize_total (now now' : Z) (event : CalendarEvent) (day : Z)
    (position : ResizePosition) (delta : Z) (st : CalendarState) :
  ∃ st', handleResize now now' event day position delta st = Some st'.
Proof.
  unfold handleResize, resizeCommit.
  destruct (resizedEvent _ _ _) as [newEvent|]; [|eauto].
  rewrite history_setResizingEvent.
  destruct (isValidDropDate_total newEvent (present (history st)) now now'
              (startDate newEvent) (endDate newEvent)) as [v ->].
  destruct v; simpl; eauto.
Qed.

(** ** The calendar functions on known dates *)

Example epoch_day : JsDate.civilFromDays 0 = (1970, 1, 1).
Proof. reflexivity. Qed.

Example clock_date :
  (JsDate.getFullYear Sample.clock, JsDate.getMonth Sample.clock,
   JsDate.getDate Sample.clock) = (2026, 10, 2)
  ∧ JsDate.setHoursZero Sample.clock = 1793577600000.
Proof. split; reflexivity. Qed.

(** A date past the end of the month rolls over, and a leap day moved to
    a common year becomes the first of March. *)
Example setDate_rolls_over :
  JsDate.setDate (JsDate.fromYMD 2027 0 30) 33 = JsDate.fromYMD 2027 1 2
  ∧ JsDate.setFullYear (JsDate.fromYMD 2028 1 29) 2029 = JsDate.fromYMD 2029 2 1.
Proof. split; reflexivity. Qed.

(** The start of today is not in the past, whatever the clock reads. *)
Example today_is_not_past :
  isValidDropDate Sample.clock Sample.clock [] Sample.review
    (JsDate.fromYMD 2026 10 2) (JsDate.fromYMD 2026 10 2) = Some Accept
  ∧ isValidDropDate Sample.clock Sample.clock [] Sample.review
      (JsDate.fromYMD 2026 10 2 - 1) (JsDate.fromYMD 2026 10 2)
    = Some (Reject PastDate).
Proof. split; vm_compute; reflexivity. Qed.

(** The save handler tests the title before trimming: a title of blanks
    only, which the modal never lets through, would be stored as the empty
    title. *)
Example handleModalSave_blank_title :
  title <$> present (history
    (handleModalSave Sample.clock true
       {| Draft.title := "   "; Draft.description := "";
          Draft.startDate := 0; Draft.endDate := 0;
          Draft.startTime := "09:00"; Draft.endTime := "10:00";
          Draft.type := other |}
       (Sample.calendar Sample.clock [])))
  = [""%string].
Proof. vm_compute. reflexivity. Qed.


(** * More of the code *)

(** ** History: what undo and redo keep *)

Lemma past_snoc_cases (ps : list (list CalendarEvent)) :
  ps = [] ∨ ∃ ps' p, ps = ps' ++ [p].
Proof.
  destruct ps as [|x l] using rev_ind; [left; reflexivity|right; eauto].
Qed.

Lemma timeline_undo (h : HistoryState) : timeline (undo h) = timeline h.
Proof.
  destruct h as [ps c fs].
  destruct (past_snoc_cases ps) as [->|(ps' & p & ->)]; [reflexivity|].
  rewrite undo_snoc. unfold timeline; simpl.
  rewrite <- app_assoc. reflexivity.
Qed.

Lemma timeline_redo (h : HistoryState) : timeline (redo h) = timeline h.
Proof.
  destruct h as [ps c [|f fs]]; [reflexivity|].
  rewrite redo_cons. unfold timeline; simpl.
  rewrite <- app_assoc. reflexivity.
Qed.

Lemma undo_pushToHistory (c : list CalendarEvent) (h : HistoryState) :
  undo (pushToHistory c h)
  = {| past := past h; present := present h; future := [c] |}.
Proof. destruct h as [ps p fs]. unfold pushToHistory; simpl. apply undo_snoc. Qed.

(** X1.  Undo and redo only move the cursor: the snapshots of the history,
    read in time order (past, present, future), are the same before and
    after; no snapshot is lost, made up or reordered. *)
Theorem undo_redo_keep_timeline (h : HistoryState) :
  timeline (undo h) = timeline h ∧ timeline (redo h) = timeline h.
Proof. split; [apply timeline_undo|apply timeline_redo]. Qed.

(** X2.  Redo takes back an undo, when there was something to undo, and
    undo takes back a redo, when there was something to redo. *)
Theorem undo_redo_inverse (h : HistoryState) :
  (past h ≠ [] → redo (undo h) = h) ∧ (future h ≠ [] → undo (redo h) = h).
Proof.
  destruct h as [ps c fs]. simpl. split.
  - intros Hne. destruct (past_snoc_cases ps) as [->|(ps' & p & ->)]; [congruence|].
    rewrite undo_snoc, redo_cons. reflexivity.
  - intros Hne. destruct fs as [|f fs]; [congruence|].
    rewrite redo_cons, undo_snoc. reflexivity.
Qed.

Lemma undo_redo_inverse_witness :
  let h := {| past := [[Sample.review]]; present := [Sample.standup];
              future := [[]] |} in
  redo (undo h) = h ∧ undo (redo h) = h.
Proof.
  cbv zeta. split.
  - apply (proj1 (undo_redo_inverse _)). discriminate.
  - apply (proj2 (undo_redo_inverse _)). discriminate.
Defined.

(** X3.  Whatever key is pressed, the keyboard handler keeps the snapshots
    of the history in their order; without Ctrl or Meta, or with a key
    other than [z], it leaves the history untouched. *)
Theorem handleKeyPress_keeps_timeline (e : KeyboardEvent) (h : HistoryState) :
  timeline (handleKeyPress e h) = timeline h
  ∧ ((ctrlKey e || metaKey e) && (key e =? "z")%string = false →
     handleKeyPress e h = h).
Proof.
  unfold handleKeyPress. split.
  - destruct (_ && _); [|reflexivity].
    destruct (shiftKey e); [apply timeline_redo|apply timeline_undo].
  - intros ->. reflexivity.
Qed.

Lemma handleKeyPress_keeps_timeline_witness :
  let e := {| ctrlKey := true; metaKey := false; shiftKey := true; key := "Z" |} in
  handleKeyPress e (history Sample.november) = history Sample.november.
Proof.
  cbv zeta. apply (proj2 (handleKeyPress_keeps_timeline _ _)). reflexivity.
Defined.

(** X4.  Undo right after a successful create, update or delete gives back
    the collection and the past of before; the only trace is the undone
    snapshot, the collection the commit had made, alone in the future. *)
Theorem undo_after_commit_restores (now : Z) (eventData : Draft.t)
    (updatedEvent : CalendarEvent) (eventId : string) (st : CalendarState) :
  (Draft.title eventData ≠ ""%string →
   undo (history (handleModalSave now true eventData st))
   = {| past := past (history st); present := present (history st);
        future := [present (history (handleModalSave now true eventData st))] |})
  ∧ undo (history (handleUpdateEvent true updatedEvent st))
    = {| past := past (history st); present := present (history st);
         future := [present (history (handleUpdateEvent true updatedEvent st))] |}
  ∧ undo (history (handleDeleteEvent eventId st))
    = {| past := past (history st); present := present (history st);
         future := [present (history (handleDeleteEvent eventId st))] |}.
Proof.
  split; [|split].
  - intros Hne. unfold handleModalSave.
    destruct (String.eqb_spec (Draft.title eventData) ""); [contradiction|].
    simpl. apply undo_pushToHistory.
  - simpl. apply undo_pushToHistory.
  - simpl. destruct (history st) as [ps p fs]. simpl. apply undo_snoc.
Qed.

Lemma undo_after_commit_restores_witness :
  let lunch :=
    {| Draft.title := "Lunch"; Draft.description := "";
       Draft.startDate := 0; Draft.endDate := 0;
       Draft.startTime := "12:00"; Draft.endTime := "13:00";
       Draft.type := personal |} in
  undo (history (handleModalSave Sample.clock true lunch Sample.november))
  = {| past := past (history Sample.november);
       present := present (history Sample.november);
       future := [present (history (handleModalSave Sample.clock true lunch
                                      Sample.november))] |}.
Proof.
  cbv zeta.
  apply (proj1 (undo_after_commit_restores Sample.clock _ Sample.trip "1"
                  Sample.november)).
  discriminate.
Defined.

(** ** Event store: what create, update and delete keep *)

(** X5.  After a delete the collection holds exactly the events it held
    before whose identity is not the deleted one. *)
Theorem delete_removes_exactly (eventId : string) (st : CalendarState)
    (e : CalendarEvent) :
  In e (present (history (handleDeleteEvent eventId st)))
  ↔ In e (present (history st)) ∧ id e ≠ eventId.
Proof.
  simpl. rewrite filter_In. split; intros [Hin Hid]; split; try assumption.
  - intros Heq. rewrite Heq, String.eqb_refl in Hid. discriminate.
  - destruct (String.eqb_spec (id e) eventId); [contradiction|reflexivity].
Qed.

(** X6.  An update keeps the identities of the collection and their
    order, and afterwards every element that has the identity of the
    updated event is the updated event. *)
Theorem update_keeps_identities (updatedEvent : CalendarEvent) (st : CalendarState) :
  let updated := present (history (handleUpdateEvent true updatedEvent st)) in
  List.map id updated = List.map id (present (history st))
  ∧ ∀ e, In e updated → id e = id updatedEvent → e = updatedEvent.
Proof.
  simpl. induction (present (history st)) as [|x l [IHids IHin]]; simpl.
  - split; [reflexivity|]. intros e [].
  - destruct (String.eqb_spec (id x) (id updatedEvent)) as [Heq|Hne].
    + split; [rewrite IHids, Heq; reflexivity|].
      intros e [<-|Hin] He; [reflexivity|apply IHin; assumption].
    + split; [rewrite IHids; reflexivity|].
      intros e [<-|Hin] He; [contradiction|apply IHin; assumption].
Qed.

Lemma update_keeps_identities_witness :
  let ev := {| id := "2"; title := "Review, moved"; description := None;
               startDate := JsDate.fromYMD 2026 10 6;
               endDate := JsDate.fromYMD 2026 10 6;
               startTime := "11:00"; endTime := "12:00";
               type := work; isMultiDay := Some false |} in
  In ev (present (history (handleUpdateEvent true ev Sample.november)))
  ∧ ∀ e, In e (present (history (handleUpdateEvent true ev Sample.november))) →
         id e = id ev → e = ev.
Proof.
  cbv zeta. split; [right; left; reflexivity|].
  exact (proj2 (update_keeps_identities _ Sample.november)).
Defined.

(** X7.  A successful create puts one event at the end of the collection
    and touches no other: its identity is the clock reading, its title is
    trimmed, and it occupies the selected day and no other. *)
Theorem create_appends_one_day_event (now : Z) (eventData : Draft.t)
    (st : CalendarState) :
  Draft.title eventData ≠ ""%string →
  ∃ e,
    present (history (handleModalSave now true eventData st))
      = present (history st) ++ [e]
    ∧ id e = pretty now
    ∧ title e = JsString.trim (Draft.title eventData)
    ∧ ∀ d, occupies e d = true ↔ d = JsDate.Day (selectedDate st).
Proof.
  intros Hne. unfold handleModalSave.
  destruct (String.eqb_spec (Draft.title eventData) ""); [contradiction|].
  eexists. split; [reflexivity|]. split; [reflexivity|]. split; [reflexivity|].
  intros d. unfold occupies. simpl.
  destruct (Z.leb_spec (JsDate.Day (selectedDate st)) d);
    destruct (Z.leb_spec d (JsDate.Day (selectedDate st))); simpl;
    split; intros; try discriminate; lia.
Qed.

Lemma create_appends_one_day_event_witness :
  ∃ e,
    present (history (handleModalSave Sample.clock true
                        {| Draft.title := " Lunch "; Draft.description := "";
                           Draft.startDate := 0; Draft.endDate := 0;
                           Draft.startTime := "12:00"; Draft.endTime := "13:00";
                           Draft.type := personal |} Sample.november))
      = present (history Sample.november) ++ [e]
    ∧ id e = pretty Sample.clock
    ∧ title e = JsString.trim " Lunch "
    ∧ ∀ d, occupies e d = true ↔ d = JsDate.Day (selectedDate Sample.november).
Proof.
  apply (create_appends_one_day_event Sample.clock
           {| Draft.title := " Lunch "; Draft.description := "";
              Draft.startDate := 0; Draft.endDate := 0;
              Draft.startTime := "12:00"; Draft.endTime := "13:00";
              Draft.type := personal |} Sample.november).
  discriminate.
Defined.

(** ** The modal's validation *)

Lemma find_all_false {A} (f : A → bool) (l : list A) :
  (∀ x, f x = false) → List.find f l = None.
Proof.
  intros Hf. induction l as [|x l IH]; [reflexivity|]. simpl.
  rewrite Hf. exact IH.
Qed.

(** X8.  The overlap search of the modal never finds an event: the events
    of the calendar carry no [date], so no existing event is ever on the
    same date as the new one, whatever the days and the times. *)
Theorem findOverlappingEvent_finds_nothing (newDate : Z)
    (newStartTime newEndTime : string) (existingEvents : list CalendarEvent)
    (excludeEventId : option string) :
  findOverlappingEvent newDate newStartTime newEndTime existingEvents
    excludeEventId = None.
Proof.
  unfold findOverlappingEvent. apply find_all_false. intros x.
  destruct (match excludeEventId with Some _ => _ | None => _ end); reflexivity.
Qed.

(** X9.  The form is accepted exactly when the title is not blank and the
    time range check passes; the events already on the day play no part. *)
Theorem validateForm_accepts_iff (props : Props.t) (eventData : EventData.t) :
  (EventModal.validateForm props eventData).2 = true
  ↔ JsString.trim (EventData.title eventData) ≠ ""%string
    ∧ validateTimeRange (EventData.startTime eventData)
        (EventData.endTime eventData) = None.
Proof.
  unfold EventModal.validateForm. cbn [snd].
  assert (Hfind : findOverlappingEvent (Props.selectedDate props)
                    (EventData.startTime eventData) (EventData.endTime eventData)
                    (Props.eventsForDay props) (id <$> Props.selectedEvent props)
                  = None).
  { unfold findOverlappingEvent. apply find_all_false. intros x.
    destruct (match id <$> Props.selectedEvent props with
              | Some _ => _ | None => _ end); reflexivity. }
  rewrite Hfind.
  destruct (String.eqb_spec (JsString.trim (EventData.title eventData)) "")
    as [Ht|Ht];
    destruct (validateTimeRange _ _) as [err|].
  - split; [|intros [? _]; contradiction].
    intros H. apply bool_decide_eq_true in H.
    apply (f_equal (lookup "endTime"%string)) in H.
    rewrite lookup_insert_eq, lookup_empty in H. discriminate.
  - split; [|intros [? _]; contradiction].
    intros H. apply bool_decide_eq_true in H.
    apply (f_equal (lookup "title"%string)) in H.
    rewrite lookup_insert_eq, lookup_empty in H. discriminate.
  - split; [|intros [_ ?]; discriminate].
    intros H. apply bool_decide_eq_true in H.
    apply (f_equal (lookup "endTime"%string)) in H.
    rewrite lookup_insert_eq, lookup_empty in H. discriminate.
  - split; [intros _; split; [assumption|reflexivity]|].
    intros _. apply bool_decide_eq_true. reflexivity.
Qed.

(** X10.  On well-formed times the range check passes exactly when the
    start is strictly before the end, counted in minutes; equal times are
    refused. *)
Theorem validateTimeRange_well_formed (startTime endTime : string) :
  wellFormedTime startTime = true → wellFormedTime endTime = true →
  (validateTimeRange startTime endTime = None
   ↔ JsString.lt (timeToMinutes startTime) (timeToMinutes endTime) = true).
Proof.
  intros Hs He. unfold validateTimeRange.
  destruct (wellFormedTime_values _ Hs) as (h & m & _ & _ & _ & ->).
  destruct (wellFormedTime_values _ He) as (h' & m' & _ & _ & _ & ->).
  simpl.
  destruct (Z.leb_spec (60 * h' + m') (60 * h + m));
    destruct (Z.ltb_spec (60 * h + m) (60 * h' + m'));
    split; intros; try discriminate; try reflexivity; lia.
Qed.

Lemma validateTimeRange_well_formed_witness :
  validateTimeRange "09:00" "10:00" = None
  ∧ validateTimeRange "10:00" "10:00" ≠ None.
Proof.
  split.
  - apply (validateTimeRange_well_formed "09:00" "10:00"); reflexivity.
  - intros H.
    apply (validateTimeRange_well_formed "10:00" "10:00") in H;
      [discriminate H|reflexivity|reflexivity].
Defined.

Lemma lt_irrefl (a : option Z) : JsString.lt a a = false.
Proof. destruct a; [apply Z.ltb_irrefl|reflexivity]. Qed.

(** X11.  The overlap test is symmetric in the two ranges, and two ranges
    that only touch, the end of one being the start of the other, do not
    overlap; both hold for all strings, also those that are not times. *)
Theorem doTimesOverlap_symmetric_half_open (a b c d : string) :
  doTimesOverlap a b c d = doTimesOverlap c d a b
  ∧ doTimesOverlap a b b c = false
  ∧ doTimesOverlap b c a b = false.
Proof.
  unfold doTimesOverlap, JsString.gt. split; [apply andb_comm|].
  split.
  - rewrite lt_irrefl. apply andb_false_r.
  - rewrite lt_irrefl. reflexivity.
Qed.

(** ** The drop validator: the other verdicts *)

(** X12.  The validator rejects with [HorizonExceeded] exactly when the
    start is not before today's midnight and lies after the instant one
    year from the second clock reading, time of day included. *)
Theorem horizon_exceeded_iff (now now' : Z) (events : list CalendarEvent)
    (event : CalendarEvent) (newStartDate newEndDate : Z) :
  isValidDropDate now now' events event newStartDate newEndDate
    = Some (Reject HorizonExceeded)
  ↔ JsDate.setHoursZero now <= newStartDate
    ∧ JsDate.setFullYear now' (JsDate.getFullYear now' + 1) < newStartDate.
Proof.
  unfold isValidDropDate.
  destruct (Z.ltb_spec newStartDate (JsDate.setHoursZero now)).
  { split; [discriminate|lia]. }
  destruct (Z.ltb_spec (JsDate.setFullYear now' (JsDate.getFullYear now' + 1))
              newStartDate).
  { split; [intros _; split; assumption|reflexivity]. }
  split; [|lia]. intros Hr. exfalso.
  destruct (dropLoop_spec event events newEndDate _ newStartDate
              (dropFuel_enough newStartDate newEndDate))
    as [(Hl & _)|(Hl & _)]; rewrite Hl in Hr; discriminate.
Qed.

(** X13.  The validator accepts exactly when the start is neither in the
    past nor beyond the horizon and, if the range is not reversed, no day
    of it carries a conflict with another event. *)
Theorem accept_iff_guards_and_no_conflict (now now' : Z)
    (events : list CalendarEvent) (event : CalendarEvent)
    (newStartDate newEndDate : Z) :
  isValidDropDate now now' events event newStartDate newEndDate = Some Accept
  ↔ JsDate.setHoursZero now <= newStartDate
    ∧ newStartDate <= JsDate.setFullYear now' (JsDate.getFullYear now' + 1)
    ∧ (newStartDate <= newEndDate →
       ∀ d, JsDate.Day newStartDate <= d <= JsDate.Day newEndDate →
            conflictOn event events d = false).
Proof.
  destruct (Z.ltb_spec newStartDate (JsDate.setHoursZero now)) as [Hp|Hp].
  { unfold isValidDropDate.
    destruct (Z.ltb_spec newStartDate (JsDate.setHoursZero now)); [|lia].
    split; [discriminate|lia]. }
  destruct (Z.ltb_spec (JsDate.setFullYear now' (JsDate.getFullYear now' + 1))
              newStartDate) as [Hh|Hh].
  { unfold isValidDropDate.
    destruct (Z.ltb_spec newStartDate (JsDate.setHoursZero now)); [lia|].
    destruct (Z.ltb_spec (JsDate.setFullYear now' (JsDate.getFullYear now' + 1))
                newStartDate); [|lia].
    split; [discriminate|lia]. }
  destruct (isValidDropDate_conflict_iff event events now now'
              newStartDate newEndDate Hp Hh) as [Hiff Hcases].
  split.
  - intros Hacc. split; [assumption|]. split; [assumption|].
    intros Hle d Hd.
    destruct (conflictOn event events d) eqn:Hc; [|reflexivity].
    assert (Hrej : isValidDropDate now now' events event newStartDate newEndDate
                   = Some (Reject TimeConflict)) by (apply Hiff; eauto).
    rewrite Hacc in Hrej. discriminate.
  - intros (_ & _ & Hnone).
    destruct Hcases as [Hacc|Hrej]; [assumption|].
    apply Hiff in Hrej as (Hle & d & Hd & Hc).
    rewrite (Hnone Hle d Hd) in Hc. discriminate.
Qed.

Lemma conflictOn_without_own (event : CalendarEvent) (events : list CalendarEvent)
    (d : Z) :
  conflictOn event
    (List.filter (fun e => negb (id e =? id event)%string) events) d
  = conflictOn event events d.
Proof.
  unfold conflictOn. rewrite existsb_filter.
  induction events as [|e l IH]; [reflexivity|]. simpl. rewrite IH.
  destruct (negb (id e =? id event)%string); simpl;
    rewrite ?andb_false_r, ?andb_true_r; reflexivity.
Qed.

(** X14.  The candidate's own entry in the collection never counts: the
    verdict is the same with the entries of its identity taken out. *)
Theorem own_entry_ignored (now now' : Z) (events : list CalendarEvent)
    (event : CalendarEvent) (newStartDate newEndDate : Z) :
  isValidDropDate now now'
    (List.filter (fun e => negb (id e =? id event)%string) events)
    event newStartDate newEndDate
  = isValidDropDate now now' events event newStartDate newEndDate.
Proof.
  set (others := List.filter _ events).
  destruct (Z.ltb_spec newStartDate (JsDate.setHoursZero now)) as [Hp|Hp].
  { unfold isValidDropDate.
    destruct (Z.ltb_spec newStartDate (JsDate.setHoursZero now)); [reflexivity|lia]. }
  destruct (Z.ltb_spec (JsDate.setFullYear now' (JsDate.getFullYear now' + 1))
              newStartDate) as [Hh|Hh].
  { unfold isValidDropDate.
    destruct (Z.ltb_spec newStartDate (JsDate.setHoursZero now)); [lia|].
    destruct (Z.ltb_spec (JsDate.setFullYear now' (JsDate.getFullYear now' + 1))
                newStartDate); [reflexivity|lia]. }
  destruct (isValidDropDate_conflict_iff event events now now'
              newStartDate newEndDate Hp Hh) as [Hiff Hcases].
  destruct (isValidDropDate_conflict_iff event others now now'
              newStartDate newEndDate Hp Hh) as [Hiff' Hcases'].
  assert (Hsame : isValidDropDate now now' others event newStartDate newEndDate
                    = Some (Reject TimeConflict)
                  ↔ isValidDropDate now now' events event newStartDate newEndDate
                    = Some (Reject TimeConflict)).
  { rewrite Hiff, Hiff'. subst others.
    split; intros (Hle & d & Hd & Hc); (split; [assumption|]); exists d;
      (split; [assumption|]);
      [rewrite <- conflictOn_without_own|rewrite conflictOn_without_own];
      assumption. }
  destruct Hcases as [Ha|Hr], Hcases' as [Ha'|Hr']; try congruence.
  - apply Hsame in Hr'. congruence.
  - pose proof (proj2 Hsame Hr). congruence.
Qed.

(** X15.  [TimeConflict] is never reported without cause: some other
    event of the collection occupies a day of the range and its time
    range meets the candidate's. *)
Theorem time_conflict_has_cause (now now' : Z) (events : list CalendarEvent)
    (event : CalendarEvent) (newStartDate newEndDate : Z) :
  isValidDropDate now now' events event newStartDate newEndDate
    = Some (Reject TimeConflict) →
  ∃ d other,
    JsDate.Day newStartDate <= d <= JsDate.Day newEndDate
    ∧ In other events ∧ id other ≠ id event
    ∧ JsDate.Day (startDate other) <= d <= JsDate.Day (endDate other)
    ∧ hasConflict event other = true.
Proof.
  intros Hr. unfold isValidDropDate in Hr.
  destruct (_ <? _); [discriminate|]. destruct (_ <? _); [discriminate|].
  destruct (dropLoop_spec event events newEndDate _ newStartDate
              (dropFuel_enough newStartDate newEndDate))
    as [(_ & _ & d & Hd & Hc)|(Hl & _)]; [|rewrite Hl in Hr; discriminate].
  destruct (conflictOn_elim event events d Hc) as (other & Hin & Hid & Hocc & Hcf).
  exists d, other. repeat split; try assumption; lia.
Qed.

Lemma time_conflict_has_cause_witness :
  ∃ d other,
    JsDate.Day (JsDate.fromYMD 2026 10 12) <= d <= JsDate.Day (JsDate.fromYMD 2026 10 12)
    ∧ In other [Sample.standup; Sample.review] ∧ id other ≠ id Sample.review
    ∧ JsDate.Day (startDate other) <= d <= JsDate.Day (endDate other)
    ∧ hasConflict Sample.review other = true.
Proof.
  apply (time_conflict_has_cause Sample.clock Sample.clock
           [Sample.standup; Sample.review] Sample.review).
  vm_compute. reflexivity.
Defined.

(** ** The events of a day cell *)

Lemma eventsInRange_spec (l : list CalendarEvent) : ∀ date,
  (eventsInRange date l).1
  = List.filter (fun e => occupies e (JsDate.Day date)) l.
Proof.
  induction l as [|e l IH]; intros date; [reflexivity|].
  cbn [eventsInRange List.filter]. rewrite isDateInEventRange_spec.
  specialize (IH (JsDate.setHoursZero date)).
  rewrite JsDateFacts.Day_setHoursZero in IH.
  destruct (eventsInRange (JsDate.setHoursZero date) l) as [kept date'].
  simpl in *. rewrite IH. destruct (occupies e (JsDate.Day date)); reflexivity.
Qed.

(** X16.  A day cell shows exactly the filtered events whose date range,
    taken in whole days, contains the day of the cell; the times of day of
    the event's start and end dates play no part. *)
Theorem getEventsForDay_spec (currentDate : Z) (filtered : list CalendarEvent)
    (day : Z) (e : CalendarEvent) :
  let cell :=
    JsDate.Day (JsDate.fromYMD (JsDate.getFullYear currentDate)
                  (JsDate.getMonth currentDate) day) in
  In e (getEventsForDay currentDate filtered day)
  ↔ In e filtered
    ∧ JsDate.Day (startDate e) <= cell <= JsDate.Day (endDate e).
Proof.
  cbv zeta. unfold getEventsForDay. rewrite eventsInRange_spec, filter_In.
  unfold occupies.
  destruct (Z.leb_spec (JsDate.Day (startDate e))
              (JsDate.Day (JsDate.fromYMD (JsDate.getFullYear currentDate)
                             (JsDate.getMonth currentDate) day)));
    destruct (Z.leb_spec
                (JsDate.Day (JsDate.fromYMD (JsDate.getFullYear currentDate)
                               (JsDate.getMonth currentDate) day))
                (JsDate.Day (endDate e)));
    simpl; split; intros [Hin H']; split; try assumption; try discriminate; lia.
Qed.

(** ** Gestures: what a resize and an accepted drag do *)

(** X17.  A resize that reaches the validator has moved exactly one edge
    by a whole, non-zero number of days, left the other edge, the identity
    and the times alone, and starts strictly before it ends. *)
Theorem resizedEvent_sound (event newEvent : CalendarEvent)
    (position : ResizePosition) (delta : Z) :
  resizedEvent event position delta = Some newEvent →
  let dayDelta := (2 * delta + 50) / 100 in
  dayDelta ≠ 0
  ∧ startDate newEvent < endDate newEvent
  ∧ id newEvent = id event
  ∧ startTime newEvent = startTime event ∧ endTime newEvent = endTime event
  ∧ match position with
    | atStart =>
        startDate newEvent = startDate event + dayDelta * JsDate.msPerDay
        ∧ endDate newEvent = endDate event
    | atEnd =>
        endDate newEvent = endDate event + dayDelta * JsDate.msPerDay
        ∧ startDate newEvent = startDate event
    end.
Proof.
  unfold resizedEvent. cbv zeta.
  destruct (Z.eqb_spec ((2 * delta + 50) / 100) 0) as [|Hk]; [discriminate|].
  rewrite JsDateFacts.setDate_getDate_add.
  destruct position.
  - destruct (Z.leb_spec (endDate event)
                (startDate event + (2 * delta + 50) / 100 * JsDate.msPerDay));
      [discriminate|].
    intros [= <-]. simpl. repeat split; try assumption; reflexivity.
  - destruct (Z.leb_spec
                (endDate event + (2 * delta + 50) / 100 * JsDate.msPerDay)
                (startDate event)); [discriminate|].
    intros [= <-]. simpl. repeat split; try assumption; reflexivity.
Qed.

Lemma resizedEvent_sound_witness :
  let newEvent :=
    {| id := "1"; title := "Standup"; description := Some ""%string;
       startDate := JsDate.fromYMD 2026 10 10;
       endDate := JsDate.fromYMD 2026 10 15;
       startTime := "09:00"; endTime := "10:00";
       type := meeting; isMultiDay := Some true |} in
  resizedEvent Sample.standup atEnd 130 = Some newEvent
  ∧ startDate newEvent < endDate newEvent.
Proof.
  cbv zeta.
  match goal with |- ?P ∧ _ => assert (H : P) by (vm_compute; reflexivity) end.
  split; [exact H|].
  exact (proj1 (proj2 (resizedEvent_sound _ _ _ _ H))).
Defined.

(** X18.  A drag of an edge by less than half a day, from 25 pixels back
    to 24 pixels forward, does nothing at all. *)
Theorem small_resize_ignored (now now' : Z) (event : CalendarEvent) (day : Z)
    (position : ResizePosition) (delta : Z) (st : CalendarState) :
  -25 <= delta < 25 →
  handleResize now now' event day position delta st = Some st.
Proof.
  intros Hd. unfold handleResize, resizedEvent.
  replace ((2 * delta + 50) / 100) with 0 by JsDateFacts.div_lia.
  reflexivity.
Qed.

Lemma small_resize_ignored_witness :
  handleResize Sample.clock Sample.clock Sample.standup 12 atEnd 24
    Sample.november = Some Sample.november
  ∧ handleResize Sample.clock Sample.clock Sample.standup 10 atStart (-25)
      Sample.november = Some Sample.november.
Proof.
  split; apply small_resize_ignored; lia.
Defined.

Lemma map_replace_ids (draggableId : string) (updatedEvent : CalendarEvent)
    (l : list CalendarEvent) :
  id updatedEvent = draggableId →
  List.map id
    (List.map (fun e => if (id e =? draggableId)%string then updatedEvent else e) l)
  = List.map id l.
Proof.
  intros Hid. induction l as [|x l IH]; [reflexivity|]. simpl. rewrite IH.
  destruct (String.eqb_spec (id x) draggableId) as [Heq|_]; [|reflexivity].
  rewrite Hid, Heq. reflexivity.
Qed.

(** X19.  An accepted drag is one commit: the drag error is cleared, the
    old collection goes on the past, the future is emptied, the
    identities and their order are kept, the events of the dragged
    identity get the target range and every other event is untouched. *)
Theorem accepted_drag_commits (now now' : Z) (draggableId : string) (destDay : Z)
    (st : CalendarState) (event : CalendarEvent) :
  List.find (fun e => (id e =? draggableId)%string) (present (history st))
    = Some event →
  isValidDropDate now now' (present (history st)) event
    (dropRange (currentDate st) event destDay).1
    (dropRange (currentDate st) event destDay).2 = Some Accept →
  ∃ st',
    handleDragEnd now now' draggableId (Some destDay) st = Some st'
    ∧ dragError st' = None
    ∧ past (history st') = past (history st) ++ [present (history st)]
    ∧ future (history st') = []
    ∧ List.map id (present (history st')) = List.map id (present (history st))
    ∧ ∀ e, In e (present (history st')) →
        if (id e =? draggableId)%string
        then (startDate e, endDate e) = dropRange (currentDate st) event destDay
             ∧ title e = title event
             ∧ startTime e = startTime event ∧ endTime e = endTime event
        else In e (present (history st)).
Proof.
  intros Hfind Hacc. unfold handleDragEnd. rewrite Hfind.
  apply find_some in Hfind as [_ Hid]. apply String.eqb_eq in Hid.
  destruct (dropRange (currentDate st) event destDay) as [s e'].
  simpl in Hacc. rewrite Hacc. simpl.
  eexists. split; [reflexivity|]. simpl.
  split; [reflexivity|]. split; [reflexivity|]. split; [reflexivity|].
  split; [apply map_replace_ids; assumption|].
  intros e Hin. apply in_map_iff in Hin as (x & Hx & Hin).
  destruct (String.eqb_spec (id x) draggableId) as [Heq|Hne].
  - subst e. simpl. rewrite Hid, String.eqb_refl. repeat split; reflexivity.
  - subst e. destruct (String.eqb_spec (id x) draggableId); [contradiction|].
    assumption.
Qed.

(** The review, dragged onto 20 November, a free day. *)
Lemma accepted_drag_commits_witness :
  ∃ st',
    handleDragEnd Sample.clock Sample.clock "2" (Some 20) Sample.november = Some st'
    ∧ dragError st' = None
    ∧ List.map id (present (history st')) = ["1"; "2"]%string.
Proof.
  destruct (accepted_drag_commits Sample.clock Sample.clock "2" 20
              Sample.november Sample.review)
    as (st' & Hrun & Herr & _ & _ & Hids & _).
  - vm_compute. reflexivity.
  - vm_compute. reflexivity.
  - exists st'. split; [exact Hrun|]. split; [exact Herr|exact Hids].
Defined.

(** X20.  A drag of an event that starts and ends in one month targets a
    range of the same number of days, from midnight to midnight. *)
Theorem drag_within_month_keeps_length (shown : Z) (event : CalendarEvent)
    (destDay : Z) :
  JsDate.getFullYear (startDate event) = JsDate.getFullYear (endDate event) →
  JsDate.getMonth (startDate event) = JsDate.getMonth (endDate event) →
  let range := dropRange shown event destDay in
  JsDate.Day range.2 - JsDate.Day range.1
  = JsDate.Day (endDate event) - JsDate.Day (startDate event)
  ∧ JsDate.TimeWithinDay range.1 = 0
  ∧ JsDate.TimeWithinDay range.2 = 0.
Proof.
  intros Hy Hm. cbv zeta. split.
  - rewrite dropRange_length. apply getDate_diff_same_month; assumption.
  - unfold dropRange. cbn [fst snd].
    rewrite JsDateFacts.setDate_getDate_add.
    unfold JsDate.fromYMD, JsDate.TimeWithinDay, JsDate.msPerDay.
    split; JsDateFacts.div_lia.
Qed.

(** The standup, whose three days lie in November, dropped on 30
    December. *)
Lemma drag_within_month_keeps_length_witness :
  dropRange (JsDate.fromYMD 2026 11 1) Sample.standup 30
  = (JsDate.fromYMD 2026 11 30, JsDate.fromYMD 2027 0 1)
  ∧ JsDate.Day (dropRange (JsDate.fromYMD 2026 11 1) Sample.standup 30).2
    - JsDate.Day (dropRange (JsDate.fromYMD 2026 11 1) Sample.standup 30).1
    = JsDate.Day (endDate Sample.standup) - JsDate.Day (startDate Sample.standup).
Proof.
  split; [vm_compute; reflexivity|].
  apply (drag_within_month_keeps_length (JsDate.fromYMD 2026 11 1)
           Sample.standup 30); vm_compute; reflexivity.
Defined.

(** ** Calendar arithmetic, the other way round *)

Module CivilFacts.
Import JsDate JsDateFacts.

Ltac eval_tests :=
  repeat match goal with
  | |- context [if ?b then _ else _] =>
      let v := eval vm_compute in b in
      match v with true => idtac | false => idtac end;
      change b with v; cbv iota
  | H : context [if ?b then _ else _] |- _ =>
      let v := eval vm_compute in b in
      match v with true => idtac | false => idtac end;
      change b with v in H; cbv iota in H
  end.

Ltac month_cases m :=
  let Hc := fresh "Hc" in
  assert (Hc : m = 1 \/ m = 2 \/ m = 3 \/ m = 4 \/ m = 5 \/ m = 6 \/ m = 7
               \/ m = 8 \/ m = 9 \/ m = 10 \/ m = 11 \/ m = 12) by lia;
  destruct Hc as [->|[->|[->|[->|[->|[->|[->|[->|[->|[->|[->| ->]]]]]]]]]]].

Lemma isLeapYear_spec y :
  isLeapYear y = true <-> (y mod 4 = 0 /\ (y mod 100 <> 0 \/ y mod 400 = 0)).
Proof.
  unfold isLeapYear.
  destruct (Z.eqb_spec (y mod 4) 0), (Z.eqb_spec (y mod 100) 0),
    (Z.eqb_spec (y mod 400) 0);
    simpl; split; intros; try discriminate; try tauto; try lia.
Qed.

Lemma gregorianMonthLength_bounds y m : 28 <= gregorianMonthLength y m <= 31.
Proof.
  unfold gregorianMonthLength.
  destruct (m =? 2); [destruct (isLeapYear y); lia|].
  destruct (_ || _); lia.
Qed.

(** A year of the era and a day of that year, the day 365 only in a year
    before a leap February, determine the era and the year back. *)
Lemma era_and_year_recovered era yoe doy :
  0 <= yoe <= 399 -> 0 <= doy <= 365 ->
  (doy = 365 -> (yoe + 1) mod 4 = 0 /\ ((yoe + 1) mod 100 <> 0 \/ yoe = 399)) ->
  let doe := yoe * 365 + yoe / 4 - yoe / 100 + doy in
  (era * 146097 + doe) / 146097 = era /\
  (doe - doe / 1460 + doe / 36524 - doe / 146096) / 365 = yoe.
Proof. intros H1 H2 H3 doe. subst doe. div_lia. Qed.

(** Civil date, to day number, and back, for the dates that exist. *)
Lemma civilFromDays_daysFromCivil y m d :
  1 <= m <= 12 -> 1 <= d <= gregorianMonthLength y m ->
  civilFromDays (daysFromCivil y m d) = (y, m, d).
Proof.
  intros Hm Hd.
  unfold daysFromCivil.
  set (c := if m <=? 2 then 1 else 0).
  set (mp := if 2 <? m then m - 3 else m + 9).
  set (era := (y - c) / 400). set (yoe := y - c - era * 400).
  set (doy := (153 * mp + 2) / 5 + d - 1).
  assert (Hyoe : 0 <= yoe <= 399) by (subst yoe era; div_lia).
  assert (Hmp : 0 <= mp <= 11 /\ m = (if mp <? 10 then mp + 3 else mp - 9)
                /\ c = (if (if mp <? 10 then mp + 3 else mp - 9) <=? 2
                        then 1 else 0)).
  { subst mp c. destruct (Z.ltb_spec 2 m), (Z.leb_spec m 2); try lia.
    - destruct (Z.ltb_spec (m - 3) 10); [|lia].
      destruct (Z.leb_spec (m - 3 + 3) 2); lia.
    - destruct (Z.ltb_spec (m + 9) 10); [lia|].
      destruct (Z.leb_spec (m + 9 - 9) 2); lia. }
  destruct Hmp as (Hmp & Hm' & Hc').
  assert (Hlen : (mp <= 10 /\ d <= (153 * (mp + 1) + 2) / 5 - (153 * mp + 2) / 5)
                 \/ (mp = 11 /\ d <= 28)
                 \/ (mp = 11 /\ d = 29 /\ isLeapYear y = true)).
  { unfold gregorianMonthLength in Hd.
    destruct (Z.eqb_spec m 2) as [->|Hne].
    - subst mp. eval_tests. replace (2 + 9) with 11 by lia.
      destruct (isLeapYear y); [|right; left; lia].
      destruct (Z.eq_dec d 29); [right; right; auto|right; left; lia].
    - left. subst mp. month_cases m; eval_tests; div_lia. }
  assert (Hdoy : 0 <= doy <= 365
     /\ (doy = 365 -> (yoe + 1) mod 4 = 0 /\ ((yoe + 1) mod 100 <> 0 \/ yoe = 399))
     /\ (5 * doy + 2) / 153 = mp
     /\ doy - (153 * mp + 2) / 5 + 1 = d).
  { subst doy. destruct Hlen as [[Hle Hlen]|[[-> Hlen]|(-> & -> & Hleap)]].
    - repeat split; try div_lia.
    - repeat split; try div_lia.
    - apply isLeapYear_spec in Hleap.
      assert (c = 1) by (rewrite Hc'; reflexivity).
      subst yoe era. repeat split; try div_lia. }
  destruct Hdoy as (Hdoy & Hleap & Hmp' & Hd').
  destruct (era_and_year_recovered era yoe doy Hyoe Hdoy Hleap) as [Hera Hyoe'].
  unfold civilFromDays. cbn zeta.
  replace (era * 146097 + (yoe * 365 + yoe / 4 - yoe / 100 + doy) - 719468 + 719468)
    with (era * 146097 + (yoe * 365 + yoe / 4 - yoe / 100 + doy)) by lia.
  rewrite Hera.
  replace (era * 146097 + (yoe * 365 + yoe / 4 - yoe / 100 + doy) - era * 146097)
    with (yoe * 365 + yoe / 4 - yoe / 100 + doy) by lia.
  rewrite Hyoe'.
  replace (yoe * 365 + yoe / 4 - yoe / 100 + doy - (365 * yoe + yoe / 4 - yoe / 100))
    with doy by lia.
  rewrite Hmp', Hd', <- Hc', <- Hm'. f_equal. f_equal. subst yoe. lia.
Qed.

(** From the first of a month to the first of the next there are as many
    days as the month is long. *)
Lemma next_month_first y m :
  1 <= m <= 12 ->
  daysFromCivil (y + m / 12) (m mod 12 + 1) 1
  = daysFromCivil y m 1 + gregorianMonthLength y m.
Proof.
  intros Hm. unfold gregorianMonthLength.
  month_cases m; unfold daysFromCivil; eval_tests; try div_lia.
  destruct (isLeapYear y) eqn:Hl.
  - apply isLeapYear_spec in Hl. div_lia.
  - assert (~ (y mod 4 = 0 /\ (y mod 100 <> 0 \/ y mod 400 = 0)))
      by (rewrite <- isLeapYear_spec; congruence).
    div_lia.
Qed.

Lemma Day_midnight x : Day (x * msPerDay) = x.
Proof. unfold Day, msPerDay. div_lia. Qed.

Lemma fromYMD_modern y mo d :
  100 <= y -> fromYMD y mo d = MakeDay y mo d * msPerDay.
Proof.
  intros Hy. unfold fromYMD.
  destruct (Z.leb_spec 0 y); destruct (Z.leb_spec y 99); simpl; try lia;
    reflexivity.
Qed.

(** [new Date(y, mo, d)] for a day that exists in the month reads back as
    that year, month and day. *)
Lemma fromYMD_reads_back y mo d :
  100 <= y -> 0 <= mo <= 11 -> 1 <= d <= gregorianMonthLength y (mo + 1) ->
  getFullYear (fromYMD y mo d) = y
  /\ getMonth (fromYMD y mo d) = mo
  /\ getDate (fromYMD y mo d) = d.
Proof.
  intros Hy Hmo Hd. rewrite fromYMD_modern by assumption.
  unfold getFullYear, getMonth, getDate. rewrite Day_midnight.
  unfold MakeDay.
  replace (mo / 12) with 0 by div_lia.
  replace (mo mod 12) with mo by div_lia.
  rewrite Z.add_0_r.
  rewrite (daysFromCivil_day y (mo + 1) d 1).
  replace (daysFromCivil y (mo + 1) d + (1 - d) + d - 1)
    with (daysFromCivil y (mo + 1) d) by lia.
  rewrite civilFromDays_daysFromCivil by lia.
  simpl. repeat split; lia.
Qed.

Lemma getMonth_range t : 0 <= getMonth t <= 11.
Proof. unfold getMonth. pose proof (civilFromDays_month (Day t)). lia. Qed.

End CivilFacts.

(** ** Grid helpers and navigation *)

(** X21.  For a date from the year 100 on, [getDaysInMonth] is the length
    of its month by the Gregorian rule: 28 or 29 for February, 30 or 31
    otherwise. *)
Theorem getDaysInMonth_gregorian (date : Z) :
  100 <= JsDate.getFullYear date →
  getDaysInMonth date
  = gregorianMonthLength (JsDate.getFullYear date) (JsDate.getMonth date + 1).
Proof.
  intros Hy. unfold getDaysInMonth.
  pose proof (CivilFacts.getMonth_range date) as Hmo.
  set (y := JsDate.getFullYear date) in *.
  set (mo := JsDate.getMonth date) in *.
  rewrite CivilFacts.fromYMD_modern by assumption.
  unfold JsDate.getDate. rewrite CivilFacts.Day_midnight.
  unfold JsDate.MakeDay.
  rewrite CivilFacts.next_month_first by lia.
  pose proof (CivilFacts.gregorianMonthLength_bounds y (mo + 1)) as Hlen.
  replace (JsDate.daysFromCivil y (mo + 1) 1 + gregorianMonthLength y (mo + 1) + 0 - 1)
    with (JsDate.daysFromCivil y (mo + 1) (gregorianMonthLength y (mo + 1)))
    by (rewrite (JsDateFacts.daysFromCivil_day y (mo + 1) 1
                   (gregorianMonthLength y (mo + 1))); lia).
  rewrite CivilFacts.civilFromDays_daysFromCivil by lia.
  reflexivity.
Qed.

Lemma getDaysInMonth_gregorian_witness :
  getDaysInMonth (JsDate.fromYMD 2028 1 10) = 29
  ∧ getDaysInMonth (JsDate.fromYMD 2100 1 10) = 28.
Proof.
  split.
  - rewrite (getDaysInMonth_gregorian (JsDate.fromYMD 2028 1 10));
      vm_compute; [reflexivity|congruence].
  - rewrite (getDaysInMonth_gregorian (JsDate.fromYMD 2100 1 10));
      vm_compute; [reflexivity|congruence].
Defined.

Lemma getFullYear_fromYMD_first (y mo : Z) :
  100 <= y → 0 <= mo <= 11 →
  JsDate.getFullYear (JsDate.fromYMD y mo 1) = y
  ∧ JsDate.getMonth (JsDate.fromYMD y mo 1) = mo
  ∧ JsDate.getDate (JsDate.fromYMD y mo 1) = 1.
Proof.
  intros Hy Hmo. apply CivilFacts.fromYMD_reads_back; try assumption.
  pose proof (CivilFacts.gregorianMonthLength_bounds y (mo + 1)). lia.
Qed.

Lemma MakeDay_carry (y mo d k : Z) :
  JsDate.MakeDay y (mo + 12 * k) d = JsDate.MakeDay (y + k) mo d.
Proof.
  unfold JsDate.MakeDay.
  replace ((mo + 12 * k) / 12) with (mo / 12 + k) by JsDateFacts.div_lia.
  replace ((mo + 12 * k) mod 12) with (mo mod 12) by JsDateFacts.div_lia.
  replace (y + (mo / 12 + k)) with (y + k + mo / 12) by lia.
  reflexivity.
Qed.

Lemma fromYMD_next_month (y mo : Z) :
  100 <= y → 0 <= mo <= 11 →
  JsDate.fromYMD y (mo + 1) 1
  = JsDate.fromYMD (if mo =? 11 then y + 1 else y) (if mo =? 11 then 0 else mo + 1) 1.
Proof.
  intros Hy Hmo. destruct (Z.eqb_spec mo 11) as [->|Hne]; [|reflexivity].
  rewrite !CivilFacts.fromYMD_modern by lia.
  rewrite <- (MakeDay_carry y 0 1 1). reflexivity.
Qed.

(** X22.  From a month of the year 100 or later, the next-month button
    shows the first day of the following month, January of the next year
    after December, and the previous-month button then comes back to the
    first day of the month that was shown. *)
Theorem month_navigation_round_trip (st : CalendarState) :
  100 <= JsDate.getFullYear (currentDate st) →
  let y := JsDate.getFullYear (currentDate st) in
  let mo := JsDate.getMonth (currentDate st) in
  let next := currentDate (handleNextMonth st) in
  JsDate.getFullYear next = (if mo =? 11 then y + 1 else y)
  ∧ JsDate.getMonth next = (if mo =? 11 then 0 else mo + 1)
  ∧ JsDate.getDate next = 1
  ∧ currentDate (handlePreviousMonth (handleNextMonth st)) = JsDate.fromYMD y mo 1
  ∧ history (handlePreviousMonth (handleNextMonth st)) = history st.
Proof.
  intros Hy. cbv zeta.
  pose proof (CivilFacts.getMonth_range (currentDate st)) as Hmo.
  unfold handlePreviousMonth, handleNextMonth. simpl.
  set (y := JsDate.getFullYear (currentDate st)) in *.
  set (mo := JsDate.getMonth (currentDate st)) in *.
  rewrite (fromYMD_next_month y mo Hy Hmo).
  assert (Hread : JsDate.getFullYear
                    (JsDate.fromYMD (if mo =? 11 then y + 1 else y)
                       (if mo =? 11 then 0 else mo + 1) 1)
                  = (if mo =? 11 then y + 1 else y)
                  ∧ JsDate.getMonth
                      (JsDate.fromYMD (if mo =? 11 then y + 1 else y)
                         (if mo =? 11 then 0 else mo + 1) 1)
                    = (if mo =? 11 then 0 else mo + 1)
                  ∧ JsDate.getDate
                      (JsDate.fromYMD (if mo =? 11 then y + 1 else y)
                         (if mo =? 11 then 0 else mo + 1) 1) = 1).
  { apply getFullYear_fromYMD_first; destruct (Z.eqb_spec mo 11); lia. }
  destruct Hread as (Hy' & Hm' & Hd').
  rewrite Hy', Hm', Hd'. repeat split; try reflexivity.
  destruct (Z.eqb_spec mo 11) as [->|Hne].
  - rewrite !CivilFacts.fromYMD_modern by lia.
    replace (0 - 1) with (11 + 12 * -1) by lia.
    rewrite MakeDay_carry. replace (y + 1 + -1) with y by lia. reflexivity.
  - replace (mo + 1 - 1) with mo by lia. reflexivity.
Qed.

Lemma month_navigation_round_trip_witness :
  let december := Sample.calendar (JsDate.fromYMD 2026 11 17) [] in
  currentDate (handleNextMonth december) = JsDate.fromYMD 2027 0 1
  ∧ currentDate (handlePreviousMonth (handleNextMonth december))
    = JsDate.fromYMD 2026 11 1.
Proof.
  cbv zeta.
  assert (Hy : 100 <= JsDate.getFullYear
                        (currentDate (Sample.calendar (JsDate.fromYMD 2026 11 17) [])))
    by (vm_compute; congruence).
  split; [vm_compute; reflexivity|].
  rewrite (proj1 (proj2 (proj2 (proj2 (month_navigation_round_trip _ Hy))))).
  vm_compute. reflexivity.
Defined.

(** X23.  A click on a day that exists in the shown month, from the year
    100 on, selects the midnight of that very day of that month and year,
    and opens the modal in create mode with no event selected; the history
    is untouched. *)
Theorem handleDayClick_selects_day (day : Z) (st : CalendarState) :
  100 <= JsDate.getFullYear (currentDate st) →
  1 <= day <= gregorianMonthLength (JsDate.getFullYear (currentDate st))
                (JsDate.getMonth (currentDate st) + 1) →
  let clicked := handleDayClick day st in
  JsDate.getFullYear (selectedDate clicked) = JsDate.getFullYear (currentDate st)
  ∧ JsDate.getMonth (selectedDate clicked) = JsDate.getMonth (currentDate st)
  ∧ JsDate.getDate (selectedDate clicked) = day
  ∧ JsDate.TimeWithinDay (selectedDate clicked) = 0
  ∧ isModalOpen clicked = true ∧ modalMode clicked = create
  ∧ selectedEvent clicked = None
  ∧ history clicked = history st.
Proof.
  intros Hy Hday. cbv zeta. unfold handleDayClick. simpl.
  rewrite JsDateFacts.fromYMD_midnight.
  pose proof (CivilFacts.getMonth_range (currentDate st)) as Hmo.
  destruct (CivilFacts.fromYMD_reads_back _ _ _ Hy Hmo Hday) as (H1 & H2 & H3).
  rewrite H1, H2, H3. repeat split; try reflexivity.
  rewrite CivilFacts.fromYMD_modern by assumption.
  unfold JsDate.TimeWithinDay, JsDate.msPerDay. JsDateFacts.div_lia.
Qed.

Lemma handleDayClick_selects_day_witness :
  selectedDate (handleDayClick 30 Sample.november) = JsDate.fromYMD 2026 10 30
  ∧ JsDate.getDate (selectedDate (handleDayClick 30 Sample.november)) = 30.
Proof.
  split; [vm_compute; reflexivity|].
  apply (handleDayClick_selects_day 30 Sample.november);
    vm_compute; [congruence|split; congruence].
Defined.







(** Beyond the valid dates no day is a weekend day. *)
Example isWeekend_invalid_date :
  List.filter (fun k => isWeekend (currentDate Sample.november)
                          (100000000 + Z.of_nat k)) (seq 0 7) = [].
Proof. vm_compute. reflexivity. Qed.

(** ** Filters and statistics *)

(** X25.  Starting from a selection without repetition that is not empty,
    as the initial one is, a toggle gives such a selection again: the last
    selected type cannot be deselected.  The other types are not touched. *)
Theorem handleTypeToggle_keeps_selection (type : EventType) (prev : list EventType) :
  List.NoDup prev → prev ≠ [] →
  List.NoDup (handleTypeToggle type prev)
  ∧ handleTypeToggle type prev ≠ []
  ∧ ∀ t, t ≠ type → (In t (handleTypeToggle type prev) ↔ In t prev).
Proof.
  intros Hnd Hne. unfold handleTypeToggle.
  destruct (bool_decide_reflect (type ∈ prev)) as [Hin|Hnin].
  - destruct (Nat.eqb_spec (length prev) 1) as [Hone|Hmore].
    + repeat split; try assumption; tauto.
    + split; [apply List.NoDup_filter; assumption|]. split.
      * destruct prev as [|a [|b l]]; [congruence|simpl in Hmore; lia|].
        simpl.
        destruct (bool_decide_reflect (a = type)) as [->|Ha]; simpl;
          [|discriminate].
        destruct (bool_decide_reflect (b = type)) as [->|Hb]; simpl;
          [|discriminate].
        exfalso. apply List.NoDup_cons_iff in Hnd as [Hnd _].
        apply Hnd. left. reflexivity.
      * intros t Ht. rewrite filter_In.
        destruct (bool_decide_reflect (t = type)); [contradiction|]. simpl. tauto.
  - split.
    + apply List.NoDup_app. repeat split; try assumption.
      * constructor; [intros []|constructor].
      * intros x Hx [<-|[]]. apply Hnin. apply list_elem_of_In. assumption.
    + split; [destruct prev; discriminate|].
      intros t Ht. rewrite in_app_iff. simpl. split; [|tauto].
      intros [H|[H|[]]]; [assumption|congruence].
Qed.

Lemma handleTypeToggle_keeps_selection_witness :
  handleTypeToggle work [work] = [work]
  ∧ handleTypeToggle work [work] ≠ [].
Proof.
  split; [reflexivity|].
  apply (handleTypeToggle_keeps_selection work [work]); [|discriminate].
  constructor; [intros []|constructor].
Defined.

Lemma totalEvents_foldl (l : list CalendarEvent) : ∀ acc,
  totalEvents (foldl (fun stats event => countType stats (type event)) acc l)
  = totalEvents acc + Z.of_nat (length l).
Proof.
  induction l as [|e l IH]; intros acc; simpl; [lia|].
  rewrite IH. unfold totalEvents. destruct (type e); simpl; lia.
Qed.

Lemma countType_foldl (l : list CalendarEvent) : ∀ acc,
  let s := foldl (fun stats event => countType stats (type event)) acc l in
  Stats.work s = Stats.work acc + Z.of_nat (length (List.filter (hasType work) l))
  ∧ Stats.personal s
    = Stats.personal acc + Z.of_nat (length (List.filter (hasType personal) l))
  ∧ Stats.meeting s
    = Stats.meeting acc + Z.of_nat (length (List.filter (hasType meeting) l))
  ∧ Stats.other s
    = Stats.other acc + Z.of_nat (length (List.filter (hasType other) l)).
Proof.
  induction l as [|e l IH]; intros acc; cbv zeta; simpl; [lia|].
  destruct (IH (countType acc (type e))) as (H1 & H2 & H3 & H4).
  rewrite H1, H2, H3, H4. unfold hasType.
  destruct (type e); simpl; lia.
Qed.

(** X26.  The statistics count every event once: each counter is the
    number of events of its type and the total is the size of the
    collection. *)
Theorem typeStats_counts (events : list CalendarEvent) :
  totalEvents (typeStats events) = Z.of_nat (length events)
  ∧ Stats.work (typeStats events)
    = Z.of_nat (length (List.filter (hasType work) events))
  ∧ Stats.personal (typeStats events)
    = Z.of_nat (length (List.filter (hasType personal) events))
  ∧ Stats.meeting (typeStats events)
    = Z.of_nat (length (List.filter (hasType meeting) events))
  ∧ Stats.other (typeStats events)
    = Z.of_nat (length (List.filter (hasType other) events)).
Proof.
  unfold typeStats. split; [rewrite totalEvents_foldl; reflexivity|].
  apply (countType_foldl events).
Qed.

(** X27.  The filtered events are events of the collection of a selected
    type, in their order; a search query that is blank filters nothing, so
    with a blank query and every type selected the whole collection is
    shown. *)
Theorem filteredEvents_sound (events : list CalendarEvent) (searchQuery : string)
    (selectedTypes : list EventType) :
  (∀ e, In e (filteredEvents events searchQuery selectedTypes) →
        In e events ∧ type e ∈ selectedTypes)
  ∧ (JsString.trim searchQuery = ""%string →
     filteredEvents events searchQuery selectedTypes
     = List.filter (fun e => bool_decide (type e ∈ selectedTypes)) events)
  ∧ (JsString.trim searchQuery = ""%string →
     (∀ ty : EventType, ty ∈ selectedTypes) →
     filteredEvents events searchQuery selectedTypes = events).
Proof.
  unfold filteredEvents. split; [|split].
  - intros e Hin. apply filter_In in Hin as [Hin Hty].
    apply bool_decide_eq_true in Hty. split; [|assumption].
    destruct (negb _); [apply filter_In in Hin as [Hin _]|]; assumption.
  - intros ->. reflexivity.
  - intros -> Hall. simpl.
    induction events as [|x l IH]; [reflexivity|]. simpl.
    rewrite (bool_decide_eq_true_2 _ (Hall (type x))), IH. reflexivity.
Qed.

Lemma filteredEvents_sound_witness :
  filteredEvents (present (history Sample.november)) "  "
    [work; personal; meeting; other]
  = present (history Sample.november).
Proof.
  apply (proj2 (proj2 (filteredEvents_sound _ "  " [work; personal; meeting; other])));
    [reflexivity|].
  intros []; repeat constructor.
Defined.

(** ** Time input and formatting *)

Lemma forallDigits4_spec (f : ascii → ascii → ascii → ascii → bool) (time : string) :
  forallDigits4 f = true → wellFormedTime time = true →
  ∃ h1 h0 m1 m0, time = timeOf h1 h0 m1 m0 ∧ f h1 h0 m1 m0 = true.
Proof.
  intros Hall Hwf.
  destruct time as [|h1 [|h0 [|c [|m1 [|m0 [|? ?]]]]]]; try discriminate Hwf.
  assert (Hparts : JsString.isDigit h1 = true ∧ JsString.isDigit h0 = true
                   ∧ c = ":"%char
                   ∧ JsString.isDigit m1 = true ∧ JsString.isDigit m0 = true).
  { cbn [wellFormedTime] in Hwf.
    do 6 (apply andb_true_iff in Hwf as [Hwf ?]).
    repeat split; try assumption. apply Ascii.eqb_eq. assumption. }
  destruct Hparts as (H1 & H0 & -> & M1 & M0).
  unfold forallDigits4 in Hall.
  rewrite forallb_forall in Hall.
  specialize (Hall h1 (isDigit_digitChars _ H1)).
  rewrite forallb_forall in Hall.
  specialize (Hall h0 (isDigit_digitChars _ H0)).
  rewrite forallb_forall in Hall.
  specialize (Hall m1 (isDigit_digitChars _ M1)).
  rewrite forallb_forall in Hall.
  specialize (Hall m0 (isDigit_digitChars _ M0)).
  exists h1, h0, m1, m0. split; [reflexivity|assumption].
Qed.

Lemma timeInputRoundTrip_digits : forallDigits4 timeInputRoundTripOn = true.
Proof. vm_compute. reflexivity. Qed.

Lemma timeInputClosed_digits : forallDigits4 timeInputClosedOn = true.
Proof. vm_compute. reflexivity. Qed.

Lemma formatRoundTrip_digits : forallDigits4 formatRoundTripOn = true.
Proof. vm_compute. reflexivity. Qed.

(** X28.  The time input shows a well-formed 24-hour time in 12-hour
    parts and puts the same time together again from them. *)
Theorem timeInput_round_trip (time : string) :
  wellFormedTime time = true →
  TimeInput.to24Hour (TimeInput.hours (TimeInput.to12Hour time))
    (TimeInput.minutes (TimeInput.to12Hour time))
    (TimeInput.period (TimeInput.to12Hour time)) = time.
Proof.
  intros Hwf.
  destruct (forallDigits4_spec _ time timeInputRoundTrip_digits Hwf)
    as (h1 & h0 & m1 & m0 & -> & Hok).
  unfold timeInputRoundTripOn in Hok. rewrite Hwf in Hok.
  apply bool_decide_eq_true in Hok. exact Hok.
Qed.

Lemma timeInput_round_trip_witness :
  TimeInput.to12Hour "00:05"
  = {| TimeInput.hours := "12"; TimeInput.minutes := Some "05"%string;
       TimeInput.period := "AM" |}
  ∧ TimeInput.to24Hour (TimeInput.hours (TimeInput.to12Hour "00:05"))
      (TimeInput.minutes (TimeInput.to12Hour "00:05"))
      (TimeInput.period (TimeInput.to12Hour "00:05")) = "00:05"%string.
Proof.
  split; [vm_compute; reflexivity|].
  apply (timeInput_round_trip "00:05"). vm_compute. reflexivity.
Defined.

(** X29.  While the time input shows a well-formed time, whatever the
    user picks in the hour, minute or period select, the time it reports
    is well formed again. *)
Theorem timeInput_emits_well_formed (value selected : string) :
  wellFormedTime value = true →
  (In selected TimeInput.hourOptions →
   wellFormedTime (TimeInput.handleHourChange value selected) = true)
  ∧ (In selected TimeInput.minuteOptions →
     wellFormedTime (TimeInput.handleMinuteChange value selected) = true)
  ∧ (In selected TimeInput.periodOptions →
     wellFormedTime (TimeInput.handlePeriodChange value selected) = true).
Proof.
  intros Hwf.
  destruct (forallDigits4_spec _ value timeInputClosed_digits Hwf)
    as (h1 & h0 & m1 & m0 & -> & Hok).
  unfold timeInputClosedOn in Hok. rewrite Hwf in Hok.
  apply andb_true_iff in Hok as [Hok Hp].
  apply andb_true_iff in Hok as [Hh Hm].
  rewrite forallb_forall in Hh, Hm, Hp.
  repeat split; intros Hin; auto.
Qed.

Lemma timeInput_emits_well_formed_witness :
  TimeInput.handlePeriodChange "09:30" "PM" = "21:30"%string
  ∧ wellFormedTime (TimeInput.handlePeriodChange "09:30" "PM") = true.
Proof.
  split; [vm_compute; reflexivity|].
  apply (timeInput_emits_well_formed "09:30" "PM");
    [vm_compute; reflexivity|right; left; reflexivity].
Defined.

(** X30.  The calendar's 12-hour format and its conversion back are
    inverse on well-formed 24-hour times. *)
Theorem format_convert_round_trip (time : string) :
  wellFormedTime time = true →
  CalendarView.convertTo24Hour (CalendarView.formatTime12Hour time) = time.
Proof.
  intros Hwf.
  destruct (forallDigits4_spec _ time formatRoundTrip_digits Hwf)
    as (h1 & h0 & m1 & m0 & -> & Hok).
  unfold formatRoundTripOn in Hok. rewrite Hwf in Hok.
  apply bool_decide_eq_true in Hok. exact Hok.
Qed.

Lemma format_convert_round_trip_witness :
  CalendarView.formatTime12Hour "13:05" = "1:05 PM"%string
  ∧ CalendarView.convertTo24Hour (CalendarView.formatTime12Hour "13:05")
    = "13:05"%string.
Proof.
  split; [vm_compute; reflexivity|].
  apply (format_convert_round_trip "13:05"). vm_compute. reflexivity.
Defined.
